(** * AI_Price_optima: the ingestion transforms of [data/ingest.py]

    A shallow embedding of [clean_sales], [clean_inventory] and [main], and
    the properties of the validation-and-repair pipeline.

    Conventions of the embedding.
    - A DataFrame is its ordered column labels and its ordered rows; a row
      maps a column label to a cell.  The row index is the default
      positional one that [read_csv] produces.
    - A cell is null (NaN / None / NaT), a number, a string or a timestamp.
      Numbers are exact rationals in canonical form: the rounding, the range
      and the infinities of binary64, and the wrap-around of int64 columns,
      are outside this model.  The properties below therefore speak of the
      value of a product or of a mean only where binary64 computes it
      exactly, and otherwise of which values are null and which are kept.
    - The grammars of [pd.to_numeric] and [pd.to_datetime] on strings belong
      to pandas; they are parameters of the development. *)

From Stdlib Require Import Ascii QArith Qcanon Qround.
From stdpp Require Import gmap strings list fin_maps sorting.

Local Open Scope string_scope.

(** ** Cells, series and frames *)

Inductive cell : Type :=
  | Null
  | Num (x : Qc)
  | Str (s : string)
  | Date (t : Z).

#[global] Instance cell_eq_dec : EqDecision cell.
Proof. solve_decision. Defined.

#[global] Instance cell_inhabited : Inhabited cell := populate Null.

Definition cell_encode (c : cell) : unit + Qc + string + Z :=
  match c with
  | Null => inl (inl (inl tt))
  | Num x => inl (inl (inr x))
  | Str s => inl (inr s)
  | Date t => inr t
  end.

Definition cell_decode (e : unit + Qc + string + Z) : cell :=
  match e with
  | inl (inl (inl _)) => Null
  | inl (inl (inr x)) => Num x
  | inl (inr s) => Str s
  | inr t => Date t
  end.

#[global] Instance cell_countable : Countable cell.
Proof.
  apply (inj_countable' cell_encode cell_decode).
  by intros [].
Defined.

(** [pd.isna] on one value. *)
Definition isna (c : cell) : bool :=
  match c with
  | Null => true
  | _ => false
  end.

Definition notna (c : cell) : bool := negb (isna c).

Abbreviation Row := (gmap string cell).
Abbreviation Series := (list cell).

Record DataFrame : Type := mkDataFrame {
  columns : list string;
  rows : list Row
}.

#[global] Instance DataFrame_eq_dec : EqDecision DataFrame.
Proof. solve_decision. Defined.

(** The value of a row under a label; an absent label reads as null. *)
Definition at_col (col : string) (r : Row) : cell := default Null (r !! col).

(** ** Exceptions and the error monad *)

Inductive exn : Type :=
  | ValueError (msg : string) (cols : gset string)
  | KeyError (key : string)
  | FileNotFoundError (path : string)
  | OtherError (msg : string).

#[global] Instance exn_eq_dec : EqDecision exn.
Proof. solve_decision. Defined.

Abbreviation Result := (sum exn).

#[global] Instance result_ret : MRet Result := λ _ x, inr x.
#[global] Instance result_bind : MBind Result := λ _ _ f m,
  match m with
  | inl e => inl e
  | inr x => f x
  end.

(** A [for] loop over a list of labels, threading the frame. *)
Fixpoint for_each {A S : Type} (l : list A) (body : S → A → Result S) (s : S)
  : Result S :=
  match l with
  | [] => mret s
  | x :: l => s' ← body s x; for_each l body s'
  end.

(** ** The pandas operations the module calls *)

(** [df[col]]: the column as a series, [KeyError] for an unknown label. *)
Definition getitem (df : DataFrame) (col : string) : Result Series :=
  if decide (col ∈ columns df)
  then mret (at_col col <$> rows df)
  else inl (KeyError col).

(** [df[col] = s]: overwrite the column, or append it when the label is new.
    The series always comes from the same frame here, so the lengths agree
    (pandas raises on a length mismatch; [zip_with] would truncate). *)
Definition setitem (df : DataFrame) (col : string) (s : Series) : DataFrame :=
  {| columns := if decide (col ∈ columns df) then columns df
                else columns df ++ [col];
     rows := zip_with (λ r v, <[col := v]> r) (rows df) s |}.

(** [DataFrame.duplicated] with [keep="first"]: a row is dropped when an
    equal row was seen before it; nulls compare equal to nulls. *)
Fixpoint drop_seen (seen : gset Row) (l : list Row) : list Row :=
  match l with
  | [] => []
  | r :: l =>
      if decide (r ∈ seen) then drop_seen seen l
      else r :: drop_seen ({[r]} ∪ seen) l
  end.

Definition drop_duplicates (df : DataFrame) : DataFrame :=
  {| columns := columns df; rows := drop_seen ∅ (rows df) |}.

(** What [fillna] does to one value [c]. *)
Definition fill (value c : cell) : cell := if isna c then value else c.

(** [Series.fillna(value)] with a scalar. *)
Definition fillna (s : Series) (value : cell) : Series := fill value <$> s.

(** [Series.fillna(other)] with a series aligned on the same index. *)
Definition fillna_series (s other : Series) : Series :=
  zip_with (λ c o, fill o c) s other.

(** Product of two numeric cells; a null operand gives null. It is applied
    to columns that went through [to_numeric] only. *)
Definition cell_mul (a b : cell) : cell :=
  match a, b with
  | Num x, Num y => Num (x * y)%Qc
  | _, _ => Null
  end.

Definition series_mul (s1 s2 : Series) : Series := zip_with cell_mul s1 s2.

(** The non-null numbers of a series, in order. *)
Definition numbers (s : Series) : list Qc :=
  omap (λ c, match c with Num x => Some x | _ => None end) s.

Definition half_sum (a b : Qc) : Qc := ((a + b) / Qc_of_Z 2)%Qc.

(** Median of a list of numbers: the middle of the sorted values, or the
    mean of the two middle ones; [None] on the empty list. *)
Definition median_of (l : list Qc) : option Qc :=
  let sorted := merge_sort Qcle l in
  let n := length sorted in
  if decide (n = 0) then None
  else if Nat.even n
       then a ← sorted !! (n / 2 - 1); b ← sorted !! (n / 2); Some (half_sum a b)
       else sorted !! (n / 2).

(** [Series.median()]: nulls are skipped; NaN when nothing is left. *)
Definition median (s : Series) : cell :=
  match median_of (numbers s) with
  | Some m => Num m
  | None => Null
  end.

(** ** Required column sets *)

Definition SALES_REQUIRED : gset string :=
  {[ "OrderID"; "OrderDate"; "CustomerID"; "ProductID"; "Quantity";
     "UnitPrice"; "Discount"; "Tax"; "ShippingCost"; "TotalAmount";
     "PaymentMethod"; "OrderStatus"; "City"; "State"; "Country" ]}.

Definition INVENTORY_REQUIRED : gset string :=
  {[ "ProductID"; "ProductName"; "Category"; "Brand"; "SellerID" ]}.

Definition sales_numeric_cols : list string :=
  ["Quantity"; "UnitPrice"; "Discount"; "Tax"; "ShippingCost"; "TotalAmount"].

Definition sales_categorical_cols : list string :=
  ["PaymentMethod"; "OrderStatus"; "City"; "State"; "Country"].

Definition inventory_fill_cols : list string :=
  ["ProductName"; "Category"; "Brand"; "SellerID"].

(** ** [clean_inventory] *)

Definition clean_inventory (df : DataFrame) : Result DataFrame :=
  let missing_cols := INVENTORY_REQUIRED ∖ list_to_set (columns df) in
  if decide (missing_cols ≠ ∅)
  then inl (ValueError "Inventory data missing columns: " missing_cols)
  else
    let df := drop_duplicates df in
    for_each inventory_fill_cols
      (λ df col, s ← getitem df col;
                 mret (setitem df col (fillna s (Str "Unknown"))))
      df.

(** ** [clean_sales] *)

Section Coercions.

(** What [pd.to_numeric] reads in a string, if anything. *)
Variable parse_numeric : string → option Qc.
(** What [pd.to_datetime] reads in a string (nanoseconds since the epoch). *)
Variable parse_datetime : string → option Z.
(** What [pd.to_datetime] makes of a number. *)
Variable datetime_of_number : Qc → option Z.

(** One value through [to_numeric]: numbers pass, a string is read or
    becomes null, a timestamp is its count of nanoseconds. *)
Definition to_numeric_cell (c : cell) : cell :=
  match c with
  | Null => Null
  | Num x => Num x
  | Str s => match parse_numeric s with Some x => Num x | None => Null end
  | Date t => Num (Qc_of_Z t)
  end.

(** One value through [to_datetime]: timestamps pass, strings and numbers
    are read or become null (NaT). *)
Definition to_datetime_cell (c : cell) : cell :=
  match c with
  | Null => Null
  | Num x => match datetime_of_number x with Some t => Date t | None => Null end
  | Str s => match parse_datetime s with Some t => Date t | None => Null end
  | Date t => Date t
  end.

(** [pd.to_numeric(s, errors="coerce")] *)
Definition to_numeric (s : Series) : Series := to_numeric_cell <$> s.

(** [pd.to_datetime(s, errors="coerce")] *)
Definition to_datetime (s : Series) : Series := to_datetime_cell <$> s.

Definition clean_sales (df : DataFrame) : Result DataFrame :=
  let missing_cols := SALES_REQUIRED ∖ list_to_set (columns df) in
  if decide (missing_cols ≠ ∅)
  then inl (ValueError "Sales data missing columns: " missing_cols)
  else
    let df := drop_duplicates df in
    (* Type corrections *)
    od ← getitem df "OrderDate";
    let df := setitem df "OrderDate" (to_datetime od) in
    df ← for_each sales_numeric_cols
           (λ df col, s ← getitem df col;
                      mret (setitem df col (to_numeric s)))
           df;
    (* Missing value handling *)
    q ← getitem df "Quantity";
    let df := setitem df "Quantity" (fillna q (Num (Qc_of_Z 1))) in
    up ← getitem df "UnitPrice";
    up_med ← getitem df "UnitPrice";
    let df := setitem df "UnitPrice" (fillna up (median up_med)) in
    d ← getitem df "Discount";
    let df := setitem df "Discount" (fillna d (Num (Qc_of_Z 0))) in
    t ← getitem df "Tax";
    let df := setitem df "Tax" (fillna t (Num (Qc_of_Z 0))) in
    sc ← getitem df "ShippingCost";
    let df := setitem df "ShippingCost" (fillna sc (Num (Qc_of_Z 0))) in
    ta ← getitem df "TotalAmount";
    q ← getitem df "Quantity";
    up ← getitem df "UnitPrice";
    let df := setitem df "TotalAmount" (fillna_series ta (series_mul q up)) in
    (* Categorical fills *)
    for_each sales_categorical_cols
      (λ df col, s ← getitem df col;
                 mret (setitem df col (fillna s (Str "Unknown"))))
      df.

End Coercions.

(** ** Concrete readers, for running the transforms on examples

    They cover plain integer literals and ISO [YYYY-MM-DD] dates, which
    pandas reads the same way. *)

Definition digit_of (a : ascii) : option Z :=
  let n := Z.of_nat (nat_of_ascii a) in
  if decide (48 ≤ n ≤ 57)%Z then Some (n - 48)%Z else None.

Fixpoint digits_value (acc : Z) (s : string) : option Z :=
  match s with
  | EmptyString => Some acc
  | String a s => d ← digit_of a; digits_value (10 * acc + d)%Z s
  end.

Definition read_integer (s : string) : option Qc :=
  match s with
  | EmptyString => None
  | String "-" EmptyString => None
  | String "-" s' => (λ n, Qc_of_Z (- n)) <$> digits_value 0 s'
  | _ => Qc_of_Z <$> digits_value 0 s
  end.

Definition days_from_civil (y m d : Z) : Z :=
  let y' := if (m <=? 2)%Z then (y - 1)%Z else y in
  let era := (y' `div` 400)%Z in
  let yoe := (y' - era * 400)%Z in
  let mp := if (m <=? 2)%Z then (m + 9)%Z else (m - 3)%Z in
  let doy := ((153 * mp + 2) `div` 5 + d - 1)%Z in
  let doe := (yoe * 365 + yoe `div` 4 - yoe `div` 100 + doy)%Z in
  (era * 146097 + doe - 719468)%Z.

Definition read_iso_date (s : string) : option Z :=
  if decide (String.length s = 10 ∧ String.substring 4 1 s = "-" ∧ String.substring 7 1 s = "-")
  then
    y ← digits_value 0 (String.substring 0 4 s);
    m ← digits_value 0 (String.substring 5 2 s);
    d ← digits_value 0 (String.substring 8 2 s);
    if decide (1 ≤ m ≤ 12 ∧ 1 ≤ d ≤ 31)%Z
    then Some (days_from_civil y m d * 86400000000000)%Z
    else None
  else None.

Definition ns_of_number (x : Qc) : option Z := Some (Qfloor x).

Definition clean_sales_std : DataFrame → Result DataFrame :=
  clean_sales read_integer read_iso_date ns_of_number.

(** A sales row from its fifteen values, in the order of the CSV header. *)
Definition sales_header : list string :=
  ["OrderID"; "OrderDate"; "CustomerID"; "ProductID"; "Quantity";
   "UnitPrice"; "Discount"; "Tax"; "ShippingCost"; "TotalAmount";
   "PaymentMethod"; "OrderStatus"; "City"; "State"; "Country"].

Definition inventory_header : list string :=
  ["ProductID"; "ProductName"; "Category"; "Brand"; "SellerID"].

Definition row_of (header : list string) (values : list cell) : Row :=
  list_to_map (zip header values).

Definition frame_of (header : list string) (table : list (list cell))
  : DataFrame :=
  {| columns := header; rows := row_of header <$> table |}.

Definition qz (n : Z) : cell := Num (Qc_of_Z n).

(** ** [main]: the orchestrator

    The file system and the CSV reader and writer are the environment's;
    [main] is embedded over an abstract file-system state.  A world is that
    state and what was printed so far.  The directories of lines 9-14 are
    created when the module is loaded, before [main] runs. *)

Definition RAW_DIR : string := "data/raw".
Definition PROCESSED_DIR : string := "data/processed".
Definition DAILY_DIR : string := "data/daily_ingest".

(** [os.path.join] of a directory and a relative name. *)
Definition path_join (dir name : string) : string := dir ++ "/" ++ name.

(** One call of [print]: a text, or a text followed by an exception. *)
Inductive message : Type :=
  | Say (text : string)
  | SayExn (text : string) (e : exn).

Section Orchestrator.

Variable parse_numeric : string → option Qc.
Variable parse_datetime : string → option Z.
Variable datetime_of_number : Qc → option Z.

(** The state of the file system. *)
Variable FS : Type.
(** [pd.read_csv(path)]: a frame, or the exception it raises. *)
Variable read_csv : string → FS → Result DataFrame.
(** [df.to_csv(path, index=False)]: the exception it raises, if any, and
    the file system it leaves. *)
Variable to_csv : DataFrame → string → FS → option exn * FS.
(** [os.path.exists(path)] *)
Variable path_exists : string → FS → bool.
(** The run date, as [strftime("%Y-%m-%d")] gives it. *)
Variable today : string.

Record World : Type := mkWorld {
  fs : FS;
  stdout : list message
}.

Definition IO (A : Type) : Type := World → Result A * World.

#[local] Instance io_ret : MRet IO := λ _ x w, (inr x, w).
#[local] Instance io_bind : MBind IO := λ _ _ f m w,
  match m w with
  | (inl e, w') => (inl e, w')
  | (inr x, w') => f x w'
  end.

(** The world after one more line on standard output. *)
Definition say (m : message) (w : World) : World :=
  {| fs := fs w; stdout := stdout w ++ [m] |}.

Definition print (text : string) : IO unit :=
  λ w, (inr tt, say (Say text) w).

Definition print_exn (text : string) (e : exn) : IO unit :=
  λ w, (inr tt, say (SayExn text e) w).

Definition io_read_csv (path : string) : IO DataFrame :=
  λ w, (read_csv path (fs w), w).

Definition io_to_csv (df : DataFrame) (path : string) : IO unit :=
  λ w, let '(err, fs') := to_csv df path (fs w) in
       (match err with Some e => inl e | None => inr tt end,
        {| fs := fs'; stdout := stdout w |}).

Definition io_exists (path : string) : IO bool :=
  λ w, (inr (path_exists path (fs w)), w).

(** A pure computation that may raise. *)
Definition io_lift {A : Type} (r : Result A) : IO A := λ w, (r, w).

(** [try: body except Exception as e: handler e] *)
Definition try_except {A : Type} (body : IO A) (handler : exn → IO A) : IO A :=
  λ w, match body w with
       | (inl e, w') => handler e w'
       | (inr x, w') => (inr x, w')
       end.

Definition today_dir : string := path_join DAILY_DIR today.

(** The body of the first [try] of [main]. *)
Definition sales_body : IO unit :=
  let sales_path := path_join RAW_DIR "sales_data.csv" in
  sales_df ← io_read_csv sales_path;
  print "✅ Sales data loaded successfully";;
  sales_cleaned ←
    io_lift (clean_sales parse_numeric parse_datetime datetime_of_number sales_df);
  io_to_csv sales_cleaned (path_join PROCESSED_DIR "sales_cleaned.csv");;
  io_to_csv sales_cleaned (path_join today_dir "sales_cleaned.csv");;
  print "✅ Sales data cleaned and saved".

(** The body of the second [try] of [main]. *)
Definition inventory_body : IO unit :=
  let inv_path := path_join RAW_DIR "inventory_data.csv" in
  found ← io_exists inv_path;
  if (found : bool) then
    inv_df ← io_read_csv inv_path;
    print "✅ Inventory data loaded successfully";;
    inv_cleaned ← io_lift (clean_inventory inv_df);
    io_to_csv inv_cleaned (path_join PROCESSED_DIR "inventory_cleaned.csv");;
    io_to_csv inv_cleaned (path_join today_dir "inventory_cleaned.csv");;
    print "✅ Inventory data cleaned and saved"
  else
    print "⚠️ inventory_data.csv not found — skipping inventory ingestion".

Definition sales_step : IO unit :=
  try_except sales_body (print_exn "❌ Error processing sales data:").

Definition inventory_step : IO unit :=
  try_except inventory_body (print_exn "❌ Error processing inventory data:").

Definition main : IO unit :=
  sales_step;;
  inventory_step;;
  print "🎯 Ingestion completed".

End Orchestrator.

Arguments fs {FS} _.
Arguments stdout {FS} _.
Arguments mkWorld {FS} _ _.
Arguments say {FS} _ _.

(** A file system that keeps, under each path, the frame written there. *)
Definition frame_store : Type := gmap string DataFrame.

Definition store_read_csv (path : string) (files : frame_store)
  : Result DataFrame :=
  match files !! path with
  | Some df => inr df
  | None => inl (FileNotFoundError path)
  end.

Definition store_to_csv (df : DataFrame) (path : string) (files : frame_store)
  : option exn * frame_store :=
  (None, <[path := df]> files).

Definition store_exists (path : string) (files : frame_store) : bool :=
  bool_decide (is_Some (files !! path)).


(** ** Row-wise views of the transforms

    Every column assignment of the transforms rewrites one label of each
    row from values of that same row (and, for the UnitPrice fill, from one
    scalar computed beforehand).  These definitions replay the assignments
    of the source, in its order, on a single row; the lemmas below show that
    the transforms compute exactly them on every deduplicated row. *)

Definition assign (col : string) (g : Row → cell) (r : Row) : Row :=
  <[col := g r]> r.

(** The loop [for col in cols: df[col] = f(df[col])] on one row. *)
Definition assign_each (cols : list string) (g : cell → cell) (r : Row) : Row :=
  foldl (λ r col, assign col (λ r, g (at_col col r)) r) r cols.

(** The same rewriting applied to every row of a frame. *)
Definition map_rows (F : Row → Row) (df : DataFrame) : DataFrame :=
  {| columns := columns df; rows := F <$> rows df |}.

Definition inventory_row (r : Row) : Row :=
  assign_each inventory_fill_cols (fill (Str "Unknown")) r.

Definition sales_coerce_row (to_num to_date : cell → cell) (r : Row) : Row :=
  let r := assign "OrderDate" (λ r, to_date (at_col "OrderDate" r)) r in
  assign_each sales_numeric_cols to_num r.

Definition sales_fill_row (med : cell) (r : Row) : Row :=
  let r := assign "Quantity" (λ r, fill (Num (Qc_of_Z 1)) (at_col "Quantity" r)) r in
  let r := assign "UnitPrice" (λ r, fill med (at_col "UnitPrice" r)) r in
  let r := assign "Discount" (λ r, fill (Num (Qc_of_Z 0)) (at_col "Discount" r)) r in
  let r := assign "Tax" (λ r, fill (Num (Qc_of_Z 0)) (at_col "Tax" r)) r in
  let r := assign "ShippingCost"
             (λ r, fill (Num (Qc_of_Z 0)) (at_col "ShippingCost" r)) r in
  let r := assign "TotalAmount"
             (λ r, fill (cell_mul (at_col "Quantity" r) (at_col "UnitPrice" r))
                        (at_col "TotalAmount" r)) r in
  assign_each sales_categorical_cols (fill (Str "Unknown")) r.

Section SalesRowView.

Variable parse_numeric : string → option Qc.
Variable parse_datetime : string → option Z.
Variable datetime_of_number : Qc → option Z.

(** The UnitPrice median that [clean_sales] fills with: taken on the
    deduplicated, coerced column, before the fill. *)
Definition unit_price_median (df : DataFrame) : cell :=
  median (to_numeric parse_numeric
            (at_col "UnitPrice" <$> rows (drop_duplicates df))).

(** A sales row after coercion and fills. *)
Definition sales_row (df : DataFrame) (r : Row) : Row :=
  sales_fill_row (unit_price_median df)
    (sales_coerce_row (to_numeric_cell parse_numeric)
       (to_datetime_cell parse_datetime datetime_of_number) r).

End SalesRowView.

(** ** Notions the properties are stated with *)

(** Every label of [required] is a column of the frame. *)
Definition has_columns (required : gset string) (df : DataFrame) : Prop :=
  required ⊆ list_to_set (columns df).

(** The number of distinct rows of a frame. *)
Definition distinct_rows (df : DataFrame) : nat :=
  size (list_to_set (rows df) : gset Row).

(** Every row of the frame has a value under exactly the frame's labels. *)
Definition rows_match_columns (df : DataFrame) : Prop :=
  Forall (λ r : Row, dom r = list_to_set (columns df)) (rows df).

(** The labels [clean_sales] assigns to. *)
Definition sales_assigned_cols : list string :=
  "OrderDate" :: sales_numeric_cols ++ sales_categorical_cols.

(** ** Example frames *)

(** A sales table whose header lacks the Tax column. *)
Definition sales_without_tax : DataFrame :=
  frame_of
    ["OrderID"; "OrderDate"; "CustomerID"; "ProductID"; "Quantity";
     "UnitPrice"; "Discount"; "ShippingCost"; "TotalAmount";
     "PaymentMethod"; "OrderStatus"; "City"; "State"; "Country"]
    [[qz 1; Str "2024-01-05"; qz 7; qz 3; qz 2; qz 10; Null; Null; qz 20;
      Str "Card"; Str "Paid"; Str "Pune"; Str "MH"; Str "India"]].

(** Two orders and a repeated line; one quantity, one price and the totals
    are missing. *)
Definition sales_sample : DataFrame :=
  frame_of sales_header
    [[qz 1; Str "2024-01-05"; qz 7; qz 3; Str ""; Str "10"; Null; Null; Null;
      Str ""; Null; Str "Paid"; Str "Pune"; Null; Str "India"];
     [qz 2; Str "not a date"; qz 8; qz 4; qz 2; Null; qz 1; Null; Null;
      Null; Str "Card"; Null; Null; Null; Null];
     [qz 2; Str "not a date"; qz 8; qz 4; qz 2; Null; qz 1; Null; Null;
      Null; Str "Card"; Null; Null; Null; Null];
     [qz 3; Str "2024-02-01"; qz 9; qz 5; qz 4; qz 6; Null; qz 2; Null;
      qz 30; Str "Cash"; Str "Paid"; Str "Delhi"; Str "DL"; Str "India"]].

(** A single order whose price is missing: no price to take a median of. *)
Definition sales_no_price : DataFrame :=
  frame_of sales_header
    [[qz 1; Str "2024-01-05"; qz 7; qz 3; qz 2; Null; Null; Null; Null;
      Null; Str "Card"; Str "Paid"; Str "Pune"; Str "MH"; Str "India"]].

(** Two orders that differ only in that the second one spells out the
    quantity 1 which the first one leaves empty. *)
Definition sales_near_duplicates : DataFrame :=
  frame_of sales_header
    [[qz 1; Str "2024-01-05"; qz 7; qz 3; Null; qz 10; qz 0; qz 0; qz 0;
      qz 10; Str "Card"; Str "Paid"; Str "Pune"; Str "MH"; Str "India"];
     [qz 1; Str "2024-01-05"; qz 7; qz 3; qz 1; qz 10; qz 0; qz 0; qz 0;
      qz 10; Str "Card"; Str "Paid"; Str "Pune"; Str "MH"; Str "India"]].

(** The first line of [sales_sample]. *)
Definition sales_sample_first : Row :=
  row_of sales_header
    [qz 1; Str "2024-01-05"; qz 7; qz 3; Str ""; Str "10"; Null; Null; Null;
     Str ""; Null; Str "Paid"; Str "Pune"; Null; Str "India"].

Definition inventory_sample : DataFrame :=
  frame_of inventory_header
    [[qz 3; Str "Lamp"; Null; Str "Lumen"; qz 12];
     [qz 3; Str "Lamp"; Null; Str "Lumen"; qz 12];
     [qz 4; Null; Str "Toys"; Null; Null]].

(** What the two samples are cleaned to. *)
Definition sales_sample_cleaned : DataFrame :=
  frame_of sales_header
    [[qz 1; Date 1704412800000000000; qz 7; qz 3; qz 1; qz 10; qz 0; qz 0;
      qz 0; qz 10; Str "Unknown"; Str "Paid"; Str "Pune"; Str "Unknown";
      Str "India"];
     [qz 2; Null; qz 8; qz 4; qz 2; qz 8; qz 1; qz 0; qz 0; qz 16;
      Str "Card"; Str "Unknown"; Str "Unknown"; Str "Unknown"; Str "Unknown"];
     [qz 3; Date 1706745600000000000; qz 9; qz 5; qz 4; qz 6; qz 0; qz 2;
      qz 0; qz 30; Str "Cash"; Str "Paid"; Str "Delhi"; Str "DL";
      Str "India"]].

Definition inventory_sample_cleaned : DataFrame :=
  frame_of inventory_header
    [[qz 3; Str "Lamp"; Str "Unknown"; Str "Lumen"; qz 12];
     [qz 4; Str "Unknown"; Str "Toys"; Str "Unknown"; Str "Unknown"]].

(** A sales table with its header and no line. *)
Definition sales_empty : DataFrame := frame_of sales_header [].

(** The lines of [sales_sample] in reverse order. *)
Definition sales_sample_reversed : DataFrame :=
  {| columns := columns sales_sample; rows := reverse (rows sales_sample) |}.

(** A writer that always refuses, as on a read-only directory. *)
Definition store_to_csv_denied (df : DataFrame) (path : string)
    (files : frame_store) : option exn * frame_store :=
  (Some (OtherError "Permission denied"), files).

(** A run whose sales file lacks the Tax column. *)
Definition tax_missing_world : World frame_store :=
  {| fs := {[ "data/raw/sales_data.csv" := sales_without_tax ]}; stdout := [] |}.

(** A run that finds both raw files. *)
Definition both_files_world : World frame_store :=
  {| fs := {[ "data/raw/sales_data.csv" := sales_sample;
              "data/raw/inventory_data.csv" := inventory_sample ]};
     stdout := [] |}.

(** A run that finds the sales file and no inventory file. *)
Definition sales_only_world : World frame_store :=
  {| fs := {[ "data/raw/sales_data.csv" := sales_sample ]}; stdout := [] |}.

(** * Properties *)

(** ** The error monad and the column primitives *)

Lemma bind_inr {A B : Type} (x : A) (f : A → Result B) : (inr x ≫= f) = f x.
Proof. reflexivity. Qed.

Lemma bind_inl {A B : Type} (e : exn) (f : A → Result B) :
  (inl e ≫= f) = inl e.
Proof. reflexivity. Qed.

Lemma getitem_in (df : DataFrame) (col : string) :
  col ∈ columns df → getitem df col = inr (at_col col <$> rows df).
Proof. intros Hin. unfold getitem. by rewrite decide_True. Qed.

Lemma zip_with_fmap_r {A B C : Type} (f : A → B → C) (g : A → B) (l : list A) :
  zip_with f l (g <$> l) = (λ x, f x (g x)) <$> l.
Proof. induction l as [|x l IH]; [done|]. cbn. f_equal. exact IH. Qed.

Lemma zip_with_fmap_both {A B C D : Type}
    (f : B → C → D) (g : A → B) (h : A → C) (l : list A) :
  zip_with f (g <$> l) (h <$> l) = (λ x, f (g x) (h x)) <$> l.
Proof. induction l as [|x l IH]; [done|]. cbn. f_equal. exact IH. Qed.

Lemma setitem_in (df : DataFrame) (col : string) (g : Row → cell) :
  col ∈ columns df →
  setitem df col (g <$> rows df) = map_rows (assign col g) df.
Proof.
  intros Hin. unfold setitem, map_rows.
  rewrite decide_True by done. f_equal.
  exact (zip_with_fmap_r (λ r v, <[col := v]> r) g (rows df)).
Qed.

Lemma map_rows_compose (F G : Row → Row) (df : DataFrame) :
  map_rows F (map_rows G df) = map_rows (F ∘ G) df.
Proof. unfold map_rows. cbn [columns rows]. by rewrite <- list_fmap_compose. Qed.

(** One statement [df[col] = f(df[col])] where [f] works value by value. *)
Lemma column_update (df : DataFrame) (col : string) (g : cell → cell) :
  col ∈ columns df →
  (s ← getitem df col; mret (setitem df col (g <$> s)))
  = inr (map_rows (assign col (λ r, g (at_col col r))) df).
Proof.
  intros Hin. rewrite getitem_in, bind_inr by done.
  rewrite <- list_fmap_compose. by rewrite setitem_in.
Qed.

Lemma for_each_columns (l : list string) (df : DataFrame) (g : cell → cell) :
  Forall (λ c, c ∈ columns df) l →
  for_each l (λ df col, s ← getitem df col; mret (setitem df col (g <$> s))) df
  = inr (map_rows (assign_each l g) df).
Proof.
  intros Hl. revert df Hl. induction l as [|c l IH]; intros df Hl.
  - cbn [for_each]. unfold map_rows, assign_each. cbn [foldl].
    rewrite list_fmap_id. by destruct df.
  - apply Forall_cons in Hl as [Hc Hl].
    cbn [for_each]. rewrite column_update, bind_inr by done.
    rewrite IH by done. by rewrite map_rows_compose.
Qed.

Lemma missing_empty_iff (required : gset string) (df : DataFrame) :
  required ∖ list_to_set (columns df) = ∅ ↔ has_columns required df.
Proof.
  unfold has_columns. split.
  - intros He c Hc. destruct (decide (c ∈ (list_to_set (columns df) : gset string)))
      as [|Hn]; [done|].
    assert (c ∈ required ∖ list_to_set (columns df)) as Hm
      by (apply elem_of_difference; done).
    rewrite He in Hm. by apply not_elem_of_empty in Hm.
  - intros Hs. apply leibniz_equiv. intros c. split; [|by intros ?%not_elem_of_empty].
    intros [Hc Hn]%elem_of_difference. destruct Hn. by apply Hs.
Qed.

Lemma has_columns_in (required : gset string) (df : DataFrame) (c : string) :
  has_columns required df → c ∈ required → c ∈ columns df.
Proof. intros Hs Hc. apply Hs in Hc. by apply elem_of_list_to_set in Hc. Qed.

(** ** Reading a row after assignments *)

Lemma lookup_assign_eq (col : string) (g : Row → cell) (r : Row) :
  assign col g r !! col = Some (g r).
Proof. unfold assign. apply lookup_insert_eq. Qed.

Lemma lookup_assign_ne (col c : string) (g : Row → cell) (r : Row) :
  col ≠ c → assign col g r !! c = r !! c.
Proof. intros Hne. unfold assign. by apply lookup_insert_ne. Qed.

Lemma at_col_assign_eq (col : string) (g : Row → cell) (r : Row) :
  at_col col (assign col g r) = g r.
Proof. unfold at_col. by rewrite lookup_assign_eq. Qed.

Lemma at_col_assign_ne (col c : string) (g : Row → cell) (r : Row) :
  col ≠ c → at_col c (assign col g r) = at_col c r.
Proof. intros Hne. unfold at_col. by rewrite lookup_assign_ne. Qed.

(** Closed decidable goals are settled by evaluation. *)
Ltac by_computation :=
  match goal with
  | |- ?P => apply (bool_decide_unpack P); vm_compute; exact I
  end.

Ltac label_ne := by (intros Heq; discriminate Heq).

Ltac read_row :=
  repeat first
    [ rewrite at_col_assign_eq
    | rewrite at_col_assign_ne by label_ne
    | rewrite lookup_assign_eq
    | rewrite lookup_assign_ne by label_ne ].

Ltac unfold_rows :=
  unfold sales_fill_row, sales_coerce_row, inventory_row, assign_each;
  cbn [foldl sales_numeric_cols sales_categorical_cols inventory_fill_cols].

(** ** Deduplication *)

Lemma elem_of_drop_seen (seen : gset Row) (l : list Row) (r : Row) :
  r ∈ drop_seen seen l ↔ r ∈ l ∧ r ∉ seen.
Proof.
  revert seen. induction l as [|x l IH]; intros seen; cbn [drop_seen].
  - rewrite !elem_of_nil. tauto.
  - case_decide as Hx.
    + rewrite IH, elem_of_cons. split; [tauto|].
      intros [[->|?] ?]; tauto.
    + rewrite !elem_of_cons, IH, not_elem_of_union, not_elem_of_singleton.
      split.
      * intros [->|(? & ? & ?)]; tauto.
      * intros [[->|?] ?]; [tauto|].
        destruct (decide (r = x)); tauto.
Qed.

Lemma NoDup_drop_seen (seen : gset Row) (l : list Row) :
  NoDup (drop_seen seen l).
Proof.
  revert seen. induction l as [|x l IH]; intros seen; cbn [drop_seen].
  - constructor.
  - case_decide; [apply IH|]. constructor; [|apply IH].
    rewrite elem_of_drop_seen. intros [_ Hn]. apply Hn.
    by apply elem_of_union_l, elem_of_singleton.
Qed.

Lemma sublist_drop_seen (seen : gset Row) (l : list Row) :
  drop_seen seen l `sublist_of` l.
Proof.
  revert seen. induction l as [|x l IH]; intros seen; cbn [drop_seen].
  - constructor.
  - case_decide; [apply sublist_cons | apply sublist_skip]; apply IH.
Qed.


Lemma length_drop_seen (seen : gset Row) (l : list Row) :
  length (drop_seen seen l) = size ((list_to_set l : gset Row) ∖ seen).
Proof.
  revert seen. induction l as [|x l IH]; intros seen; cbn [drop_seen list_to_set].
  - replace ((∅ : gset Row) ∖ seen) with (∅ : gset Row); [by rewrite size_empty|].
    apply leibniz_equiv. intros y. rewrite elem_of_difference, elem_of_empty. tauto.
  - case_decide as Hx.
    + rewrite IH. f_equal. apply leibniz_equiv. intros y.
      rewrite !elem_of_difference, elem_of_union, elem_of_singleton.
      split; [tauto|]. intros [[->|?] ?]; tauto.
    + cbn [length]. rewrite IH.
      replace (({[x]} ∪ list_to_set l) ∖ seen)
        with ({[x]} ∪ (list_to_set l : gset Row) ∖ ({[x]} ∪ seen)).
      * rewrite (size_union ({[x]} : gset Row)).
        -- by rewrite size_singleton.
        -- intros y. rewrite elem_of_singleton, elem_of_difference,
             not_elem_of_union, not_elem_of_singleton. tauto.
      * apply leibniz_equiv. intros y.
        rewrite !elem_of_union, !elem_of_difference, !elem_of_union,
          elem_of_singleton.
        destruct (decide (y = x)) as [->|]; tauto.
Qed.

Lemma drop_seen_NoDup (seen : gset Row) (l : list Row) :
  NoDup l → (∀ r, r ∈ l → r ∉ seen) → drop_seen seen l = l.
Proof.
  intros Hnd. revert seen. induction Hnd as [|x l Hx Hnd IH]; intros seen Hs;
    cbn [drop_seen]; [done|].
  rewrite decide_False by (apply Hs; left).
  f_equal. apply IH. intros r Hr.
  rewrite not_elem_of_union, not_elem_of_singleton. split.
  - intros ->. done.
  - apply Hs. by right.
Qed.

(** [drop_duplicates] keeps each distinct row once, at its first place. *)
Lemma drop_seen_first (seen : gset Row) (r : Row) (l : list Row) :
  r ∉ seen →
  drop_seen seen (r :: l) = r :: drop_seen seen (filter (λ x, x ≠ r) l).
Proof.
  intros Hr. cbn [drop_seen]. rewrite decide_False by done. f_equal.
  clear Hr. revert seen. induction l as [|x l IH]; intros seen; [done|].
  cbn [drop_seen]. destruct (decide (x = r)) as [->|Hne].
  - rewrite decide_True by by apply elem_of_union_l, elem_of_singleton.
    rewrite filter_cons_False by (intros H; by apply H). apply IH.
  - rewrite filter_cons_True by done. cbn [drop_seen].
    destruct (decide (x ∈ seen)) as [Hs|Hs].
    + rewrite decide_True by by apply elem_of_union_r. apply IH.
    + rewrite decide_False
        by (rewrite not_elem_of_union, not_elem_of_singleton; done).
      f_equal.
      replace ({[x]} ∪ ({[r]} ∪ seen)) with ({[r]} ∪ ({[x]} ∪ seen)); [apply IH|].
      apply leibniz_equiv. intros y. rewrite !elem_of_union. tauto.
Qed.

(** ** The transforms, row by row *)

Lemma clean_inventory_rows (df : DataFrame) :
  has_columns INVENTORY_REQUIRED df →
  clean_inventory df = inr (map_rows inventory_row (drop_duplicates df)).
Proof.
  intros Hreq. unfold clean_inventory. cbv zeta.
  rewrite decide_False by (rewrite (proj2 (missing_empty_iff _ _) Hreq); auto).
  unfold fillna.
  rewrite for_each_columns; [done|].
  unfold inventory_fill_cols.
  repeat constructor; (apply (has_columns_in _ _ _ Hreq); by_computation).
Qed.

Section SalesFacts.

Variable parse_numeric : string → option Qc.
Variable parse_datetime : string → option Z.
Variable datetime_of_number : Qc → option Z.

Abbreviation to_num := (to_numeric_cell parse_numeric).
Abbreviation to_date := (to_datetime_cell parse_datetime datetime_of_number).
Abbreviation coerce_row := (sales_coerce_row to_num to_date).
Abbreviation price_median := (unit_price_median parse_numeric).
Abbreviation cleaned_row :=
  (sales_row parse_numeric parse_datetime datetime_of_number).
Abbreviation clean := (clean_sales parse_numeric parse_datetime datetime_of_number).

Lemma coerce_row_unit_price (g : Row → cell) (r : Row) :
  at_col "UnitPrice" (assign "Quantity" g (coerce_row r))
  = to_num (at_col "UnitPrice" r).
Proof. unfold_rows. by read_row. Qed.

Lemma unit_price_column (g : Row → cell) (df : DataFrame) :
  at_col "UnitPrice" <$>
    rows (map_rows (assign "Quantity" g)
            (map_rows (assign_each sales_numeric_cols to_num)
               (map_rows (assign "OrderDate" (to_date ∘ at_col "OrderDate")) df)))
  = to_numeric parse_numeric (at_col "UnitPrice" <$> rows df).
Proof.
  unfold map_rows, to_numeric. cbn [rows].
  rewrite <- !list_fmap_compose. apply list_fmap_ext. intros i r _.
  apply (coerce_row_unit_price g r).
Qed.

Ltac sales_col Hin := apply Hin; by_computation.

Lemma clean_sales_rows (df : DataFrame) :
  has_columns SALES_REQUIRED df →
  clean df = inr (map_rows (cleaned_row df) (drop_duplicates df)).
Proof.
  intros Hreq. unfold clean_sales. cbv zeta.
  rewrite decide_False by (rewrite (proj2 (missing_empty_iff _ _) Hreq); auto).
  assert (∀ c, c ∈ SALES_REQUIRED → c ∈ columns (drop_duplicates df)) as Hin
    by (intros c; apply has_columns_in, Hreq).
  unfold fillna, fillna_series, series_mul, to_datetime, to_numeric.
  set (df0 := drop_duplicates df) in *.
  (* OrderDate and the numeric loop *)
  rewrite getitem_in, bind_inr by sales_col Hin.
  rewrite <- list_fmap_compose, setitem_in by sales_col Hin.
  rewrite for_each_columns, bind_inr by (repeat constructor; sales_col Hin).
  (* Quantity *)
  rewrite getitem_in, bind_inr by sales_col Hin.
  rewrite <- list_fmap_compose, setitem_in by sales_col Hin.
  (* UnitPrice: the column is read twice, once for the median *)
  rewrite getitem_in, !bind_inr by sales_col Hin.
  rewrite <- list_fmap_compose, setitem_in by sales_col Hin.
  rewrite unit_price_column.
  (* Discount, Tax, ShippingCost *)
  do 3 (rewrite getitem_in, bind_inr by sales_col Hin;
        rewrite <- list_fmap_compose, setitem_in by sales_col Hin).
  (* TotalAmount *)
  rewrite !getitem_in, !bind_inr by sales_col Hin.
  rewrite !zip_with_fmap_both, setitem_in by sales_col Hin.
  rewrite for_each_columns by (repeat constructor; sales_col Hin).
  rewrite !map_rows_compose.
  cbv [compose sales_row sales_fill_row sales_coerce_row
       unit_price_median to_numeric].
  reflexivity.
Qed.

(** *** What each column of a cleaned sales row holds *)

Abbreviation filled_row med r := (sales_fill_row med (coerce_row r)).

Lemma filled_row_order_date (med : cell) (r : Row) :
  filled_row med r !! "OrderDate" = Some (to_date (at_col "OrderDate" r)).
Proof. unfold_rows. by read_row. Qed.

Lemma filled_row_quantity (med : cell) (r : Row) :
  filled_row med r !! "Quantity"
  = Some (fill (Num (Qc_of_Z 1)) (to_num (at_col "Quantity" r))).
Proof. unfold_rows. by read_row. Qed.

Lemma filled_row_unit_price (med : cell) (r : Row) :
  filled_row med r !! "UnitPrice"
  = Some (fill med (to_num (at_col "UnitPrice" r))).
Proof. unfold_rows. by read_row. Qed.

Lemma filled_row_zero_filled (med : cell) (r : Row) (c : string) :
  c ∈ ["Discount"; "Tax"; "ShippingCost"] →
  filled_row med r !! c = Some (fill (Num (Qc_of_Z 0)) (to_num (at_col c r))).
Proof.
  intros Hc. unfold_rows.
  repeat (apply elem_of_cons in Hc as [->|Hc]; [by read_row|]).
  by apply elem_of_nil in Hc.
Qed.

Lemma filled_row_total_amount (med : cell) (r : Row) :
  filled_row med r !! "TotalAmount"
  = Some (fill (cell_mul (fill (Num (Qc_of_Z 1)) (to_num (at_col "Quantity" r)))
                         (fill med (to_num (at_col "UnitPrice" r))))
               (to_num (at_col "TotalAmount" r))).
Proof. unfold_rows. by read_row. Qed.

Lemma filled_row_categorical (med : cell) (r : Row) (c : string) :
  c ∈ sales_categorical_cols →
  filled_row med r !! c = Some (fill (Str "Unknown") (at_col c r)).
Proof.
  intros Hc. unfold_rows.
  repeat (apply elem_of_cons in Hc as [->|Hc]; [by read_row|]).
  by apply elem_of_nil in Hc.
Qed.

Lemma filled_row_untouched (med : cell) (r : Row) (c : string) :
  c ∉ "OrderDate" :: sales_numeric_cols ++ sales_categorical_cols →
  filled_row med r !! c = r !! c.
Proof.
  intros Hc. unfold_rows.
  repeat (rewrite lookup_assign_ne;
          [|intros <-; apply Hc; cbn; repeat constructor]).
  done.
Qed.

Lemma sales_row_order_date (df : DataFrame) (r : Row) :
  cleaned_row df r !! "OrderDate" = Some (to_date (at_col "OrderDate" r)).
Proof. apply filled_row_order_date. Qed.

Lemma sales_row_quantity (df : DataFrame) (r : Row) :
  cleaned_row df r !! "Quantity"
  = Some (fill (Num (Qc_of_Z 1)) (to_num (at_col "Quantity" r))).
Proof. apply filled_row_quantity. Qed.

Lemma sales_row_unit_price (df : DataFrame) (r : Row) :
  cleaned_row df r !! "UnitPrice"
  = Some (fill (price_median df) (to_num (at_col "UnitPrice" r))).
Proof. apply filled_row_unit_price. Qed.

Lemma sales_row_zero_filled (df : DataFrame) (r : Row) (c : string) :
  c ∈ ["Discount"; "Tax"; "ShippingCost"] →
  cleaned_row df r !! c = Some (fill (Num (Qc_of_Z 0)) (to_num (at_col c r))).
Proof. apply filled_row_zero_filled. Qed.

Lemma sales_row_total_amount (df : DataFrame) (r : Row) :
  cleaned_row df r !! "TotalAmount"
  = Some (fill (cell_mul (fill (Num (Qc_of_Z 1)) (to_num (at_col "Quantity" r)))
                         (fill (price_median df)
                               (to_num (at_col "UnitPrice" r))))
               (to_num (at_col "TotalAmount" r))).
Proof. apply filled_row_total_amount. Qed.

Lemma sales_row_categorical (df : DataFrame) (r : Row) (c : string) :
  c ∈ sales_categorical_cols →
  cleaned_row df r !! c = Some (fill (Str "Unknown") (at_col c r)).
Proof. apply filled_row_categorical. Qed.

Lemma sales_row_untouched (df : DataFrame) (r : Row) (c : string) :
  c ∉ "OrderDate" :: sales_numeric_cols ++ sales_categorical_cols →
  cleaned_row df r !! c = r !! c.
Proof. apply filled_row_untouched. Qed.

End SalesFacts.

(** ** Validation *)

Section Claims.

Variable parse_numeric : string → option Qc.
Variable parse_datetime : string → option Z.
Variable datetime_of_number : Qc → option Z.

Abbreviation to_num := (to_numeric_cell parse_numeric).
Abbreviation to_date := (to_datetime_cell parse_datetime datetime_of_number).
Abbreviation clean := (clean_sales parse_numeric parse_datetime datetime_of_number).
Abbreviation price_median := (unit_price_median parse_numeric).
Abbreviation cleaned_row :=
  (sales_row parse_numeric parse_datetime datetime_of_number).

Lemma clean_sales_missing (df : DataFrame) :
  SALES_REQUIRED ∖ list_to_set (columns df) ≠ ∅ →
  clean df = inl (ValueError "Sales data missing columns: "
                    (SALES_REQUIRED ∖ list_to_set (columns df))).
Proof. intros Hm. unfold clean_sales. cbv zeta. by rewrite decide_True. Qed.

Lemma clean_inventory_missing (df : DataFrame) :
  INVENTORY_REQUIRED ∖ list_to_set (columns df) ≠ ∅ →
  clean_inventory df = inl (ValueError "Inventory data missing columns: "
                              (INVENTORY_REQUIRED ∖ list_to_set (columns df))).
Proof. intros Hm. unfold clean_inventory. cbv zeta. by rewrite decide_True. Qed.

(** C3. Each transform raises its validation error exactly when a required
    column is missing, and the error carries exactly the set of required
    labels that are not columns of the input; with no label missing the
    transform returns a frame. *)
Theorem C3_missing_columns_validation (df : DataFrame) :
  let missing_sales := SALES_REQUIRED ∖ list_to_set (columns df) in
  let missing_inventory := INVENTORY_REQUIRED ∖ list_to_set (columns df) in
  (missing_sales ≠ ∅ →
     clean df = inl (ValueError "Sales data missing columns: " missing_sales))
  ∧ (missing_sales = ∅ → ∃ out, clean df = inr out)
  ∧ (missing_inventory ≠ ∅ →
       clean_inventory df
       = inl (ValueError "Inventory data missing columns: " missing_inventory))
  ∧ (missing_inventory = ∅ → ∃ out, clean_inventory df = inr out)
  ∧ (∀ c, c ∈ missing_sales ↔ c ∈ SALES_REQUIRED ∧ c ∉ columns df)
  ∧ (∀ c, c ∈ missing_inventory ↔ c ∈ INVENTORY_REQUIRED ∧ c ∉ columns df).
Proof.
  cbv zeta. split_and!.
  - apply clean_sales_missing.
  - intros Hm%missing_empty_iff. eexists. by apply clean_sales_rows.
  - apply clean_inventory_missing.
  - intros Hm%missing_empty_iff. eexists. by apply clean_inventory_rows.
  - intros c. by rewrite elem_of_difference, elem_of_list_to_set.
  - intros c. by rewrite elem_of_difference, elem_of_list_to_set.
Qed.

(** ** Row counts *)

Lemma drop_duplicates_length (df : DataFrame) :
  length (rows (drop_duplicates df)) = distinct_rows df.
Proof.
  unfold drop_duplicates, distinct_rows. cbn [rows].
  rewrite length_drop_seen. f_equal. apply leibniz_equiv. intros r.
  rewrite elem_of_difference, elem_of_empty. tauto.
Qed.

Lemma drop_duplicates_le (df : DataFrame) :
  (length (rows (drop_duplicates df)) ≤ length (rows df))%nat.
Proof. apply sublist_length, sublist_drop_seen. Qed.

(** C4. On a table with all required columns each transform returns a
    frame with at most as many rows as the input, and exactly as many as
    the input has distinct rows. *)
Theorem C4_output_row_count (df : DataFrame) :
  (has_columns SALES_REQUIRED df →
     ∃ out, clean df = inr out
            ∧ (length (rows out) ≤ length (rows df))%nat
            ∧ length (rows out) = distinct_rows df)
  ∧ (has_columns INVENTORY_REQUIRED df →
       ∃ out, clean_inventory df = inr out
              ∧ (length (rows out) ≤ length (rows df))%nat
              ∧ length (rows out) = distinct_rows df).
Proof.
  split; intros Hreq; eexists; (split; [by first
    [apply clean_sales_rows | apply clean_inventory_rows]|]);
    unfold map_rows; cbn [rows]; rewrite length_fmap;
    auto using drop_duplicates_le, drop_duplicates_length.
Qed.

(** ** Nulls, fills and the median *)

Lemma to_num_null_or_num (c : cell) :
  to_num c = Null ∨ ∃ x, to_num c = Num x.
Proof.
  destruct c as [|x|s|t]; cbn; eauto.
  destruct (parse_numeric s); eauto.
Qed.

Lemma isna_fill (value c : cell) : isna value = false → isna (fill value c) = false.
Proof. intros Hv. unfold fill. by destruct (isna c) eqn:Hc. Qed.

Lemma fill_notna (value c : cell) : isna c = false → fill value c = c.
Proof. intros Hc. unfold fill. by rewrite Hc. Qed.

Lemma fill_isna (value c : cell) : isna c = true → fill value c = value.
Proof. intros Hc. unfold fill. by rewrite Hc. Qed.

Lemma fill_to_num_is_num (value c : cell) :
  (∃ x, value = Num x) → ∃ y, fill value (to_num c) = Num y.
Proof.
  intros [x ->]. destruct (to_num_null_or_num c) as [->|[y ->]]; cbn; eauto.
Qed.

Lemma Forall2_fmap_same {A B : Type} (P : A → B → Prop) (f : A → B) (l : list A) :
  (∀ x, x ∈ l → P x (f x)) → Forall2 P l (f <$> l).
Proof.
  induction l as [|x l IH]; intros HP; [constructor|].
  cbn. constructor; [apply HP; left|]. apply IH. intros y Hy. apply HP. by right.
Qed.

Lemma median_of_None (l : list Qc) : median_of l = None ↔ l = [].
Proof.
  unfold median_of. cbv zeta.
  pose proof (Permutation_length (merge_sort_Permutation Qcle l)) as Hlen.
  set (sorted := merge_sort Qcle l) in *. split.
  - case_decide as Hn; [intros _; apply nil_length_inv; congruence|].
    assert (length sorted `div` 2 < length sorted)%nat as Hhi
      by (apply Nat.div_lt; lia).
    assert (length sorted `div` 2 - 1 < length sorted)%nat as Hlo by lia.
    apply lookup_lt_is_Some in Hhi as [b Hb].
    apply lookup_lt_is_Some in Hlo as [a Ha].
    rewrite Ha, Hb. by destruct (Nat.even _).
  - intros ->. by rewrite decide_True by done.
Qed.

Lemma median_Null (s : Series) : median s = Null ↔ numbers s = [].
Proof.
  unfold median. rewrite <- median_of_None.
  destruct (median_of (numbers s)); split; done.
Qed.

Lemma median_null_or_num (s : Series) : median s = Null ∨ ∃ m, median s = Num m.
Proof. unfold median. destruct (median_of (numbers s)); eauto. Qed.

Lemma numbers_to_numeric_nil (s : Series) :
  numbers (to_numeric parse_numeric s) = []
  ↔ ∀ c, c ∈ s → isna (to_num c) = true.
Proof.
  unfold numbers, to_numeric. induction s as [|c s IH]; cbn.
  - split; [|done]. intros _ c Hc. by apply elem_of_nil in Hc.
  - destruct (to_num_null_or_num c) as [Hc|[x Hc]]; rewrite Hc.
    + rewrite IH. split.
      * intros Hs c' [->|Hc']%elem_of_cons; [by rewrite Hc | by apply Hs].
      * intros Hs c' Hc'. apply Hs. by right.
    + split; [done|]. intros Hs. specialize (Hs c (list_elem_of_here _ _)).
      by rewrite Hc in Hs.
Qed.

(** The median is null exactly when no UnitPrice survives the coercion. *)
Lemma price_median_Null (df : DataFrame) :
  price_median df = Null
  ↔ ∀ r, r ∈ rows df → isna (to_num (at_col "UnitPrice" r)) = true.
Proof.
  unfold unit_price_median. rewrite median_Null, numbers_to_numeric_nil. split.
  - intros Hs r Hr. apply Hs, list_elem_of_fmap. exists r. split; [done|].
    unfold drop_duplicates. cbn [rows]. rewrite elem_of_drop_seen.
    split; [done | apply not_elem_of_empty].
  - intros Hs c (r & -> & Hr)%list_elem_of_fmap. apply Hs.
    unfold drop_duplicates in Hr. cbn [rows] in Hr.
    by apply elem_of_drop_seen in Hr as [Hr _].
Qed.

Lemma at_col_Some (c : string) (r : Row) (v : cell) :
  r !! c = Some v → at_col c r = v.
Proof. intros Hr. unfold at_col. by rewrite Hr. Qed.

(** ** The sales fills *)

(** The cleaned frame, with its rows lined up with the deduplicated input. *)
Lemma clean_sales_rowwise (df : DataFrame) (P : Row → Row → Prop) :
  has_columns SALES_REQUIRED df →
  (∀ r, r ∈ rows (drop_duplicates df) → P r (cleaned_row df r)) →
  ∃ out, clean df = inr out
         ∧ columns out = columns df
         ∧ Forall2 P (rows (drop_duplicates df)) (rows out).
Proof.
  intros Hreq HP. eexists. split; [by apply clean_sales_rows|].
  split; [done|]. unfold map_rows. cbn [rows]. by apply Forall2_fmap_same.
Qed.


(** *** The median, spelled out *)

Lemma div2_odd (k : nat) : ((2 * k + 1) `div` 2 = k)%nat.
Proof. symmetry. apply (Nat.div_unique _ 2 k 1); lia. Qed.

Lemma div2_even (k : nat) : ((2 * k + 2) `div` 2 = k + 1)%nat.
Proof. symmetry. apply (Nat.div_unique _ 2 (k + 1) 0); lia. Qed.

Lemma even_odd_length (k : nat) : Nat.even (2 * k + 1) = false.
Proof.
  destruct (Nat.even (2 * k + 1)) eqn:He; [|done].
  apply Nat.even_spec in He as [j Hj]. lia.
Qed.

Lemma even_even_length (k : nat) : Nat.even (2 * k + 2) = true.
Proof. apply Nat.even_spec. exists (k + 1)%nat. lia. Qed.

(** [Series.median] is null on a series without numbers, the middle of the
    sorted numbers when their count is odd, and the mean of the two middle
    ones when it is even. *)
Lemma median_spelled_out (s : Series) :
  ∃ sorted : list Qc,
    Sorted Qcle sorted
    ∧ sorted ≡ₚ omap (λ c, match c with Num x => Some x | _ => None end) s
    ∧ (sorted = [] → median s = Null)
    ∧ (∀ k m, length sorted = (2 * k + 1)%nat → sorted !! k = Some m →
              median s = Num m)
    ∧ (∀ k a b, length sorted = (2 * k + 2)%nat →
                sorted !! k = Some a → sorted !! (k + 1)%nat = Some b →
                median s = Num ((a + b) / Qc_of_Z 2)%Qc).
Proof.
  exists (merge_sort Qcle (numbers s)). split_and!.
  - apply Sorted_merge_sort; apply _.
  - apply merge_sort_Permutation.
  - intros He. unfold median, median_of. cbv zeta. rewrite He. done.
  - intros k m Hlen Hm. unfold median, median_of. cbv zeta.
    rewrite Hlen, decide_False by lia.
    by rewrite even_odd_length, div2_odd, Hm.
  - intros k a b Hlen Ha Hb. unfold median, median_of. cbv zeta.
    rewrite Hlen, decide_False by lia.
    rewrite even_even_length, div2_even.
    replace (k + 1 - 1)%nat with k by lia. by rewrite Ha, Hb.
Qed.

(** C6. On a table with all required columns the transform returns a frame
    in which, row by row of the deduplicated input: OrderDate is the
    coerced date, nulls included; a null coerced Quantity became 1, a null
    coerced UnitPrice the median of the coerced UnitPrice column, a null
    coerced Discount, Tax or ShippingCost 0, and every other coerced number,
    a TotalAmount included, is kept; a null PaymentMethod, OrderStatus,
    City, State or Country became "Unknown" and every other such value is
    kept.  The coercions read a string with the reader or make it null,
    and keep numbers, timestamps and nulls.  The median is that of the
    numbers of the coerced column: null without any, the middle one of an
    odd count and, for two middle integers of magnitude up to 2^52 (where
    binary64 adds and halves exactly), their mean. *)
Theorem C6_sales_fill_rules (df : DataFrame) :
  has_columns SALES_REQUIRED df →
  let prices :=
    to_numeric parse_numeric (at_col "UnitPrice" <$> rows (drop_duplicates df))
  in
  (∃ out, clean df = inr out
     ∧ columns out = columns df
     ∧ Forall2
         (λ r r',
            r' !! "OrderDate" = Some (to_date (at_col "OrderDate" r))
            ∧ r' !! "Quantity"
              = Some (if isna (to_num (at_col "Quantity" r))
                      then Num (Qc_of_Z 1) else to_num (at_col "Quantity" r))
            ∧ r' !! "UnitPrice"
              = Some (if isna (to_num (at_col "UnitPrice" r))
                      then median prices
                      else to_num (at_col "UnitPrice" r))
            ∧ (∀ c, c ∈ ["Discount"; "Tax"; "ShippingCost"] →
                 r' !! c = Some (if isna (to_num (at_col c r))
                                 then Num (Qc_of_Z 0) else to_num (at_col c r)))
            ∧ (isna (to_num (at_col "TotalAmount" r)) = false →
               r' !! "TotalAmount" = Some (to_num (at_col "TotalAmount" r)))
            ∧ (∀ c, c ∈ ["PaymentMethod"; "OrderStatus"; "City"; "State";
                         "Country"] →
                 r' !! c = Some (if isna (at_col c r)
                                 then Str "Unknown" else at_col c r)))
         (rows (drop_duplicates df)) (rows out))
  ∧ (∀ s, to_num (Str s)
          = match parse_numeric s with Some x => Num x | None => Null end)
  ∧ (∀ x, to_num (Num x) = Num x)
  ∧ to_num Null = Null
  ∧ (∀ s, to_date (Str s)
          = match parse_datetime s with Some t => Date t | None => Null end)
  ∧ (∀ t, to_date (Date t) = Date t)
  ∧ to_date Null = Null
  ∧ (∃ sorted : list Qc,
       Sorted Qcle sorted
       ∧ sorted ≡ₚ omap (λ c, match c with Num x => Some x | _ => None end)
                     prices
       ∧ (sorted = [] → median prices = Null)
       ∧ (∀ k m, length sorted = (2 * k + 1)%nat → sorted !! k = Some m →
                 median prices = Num m)
       ∧ (∀ k za zb, length sorted = (2 * k + 2)%nat →
                     sorted !! k = Some (Qc_of_Z za) →
                     sorted !! (k + 1)%nat = Some (Qc_of_Z zb) →
                     (Z.abs za ≤ 2 ^ 52)%Z → (Z.abs zb ≤ 2 ^ 52)%Z →
                     median prices
                     = Num ((Qc_of_Z za + Qc_of_Z zb) / Qc_of_Z 2)%Qc)).
Proof.
  intros Hreq prices. split_and!; try done.
  - apply clean_sales_rowwise; [done|]. intros r _. split_and!.
    + apply sales_row_order_date.
    + apply sales_row_quantity.
    + apply sales_row_unit_price.
    + apply sales_row_zero_filled.
    + intros Hta. by rewrite sales_row_total_amount, (fill_notna _ _ Hta).
    + apply sales_row_categorical.
  - destruct (median_spelled_out prices) as (sorted & Hs & Hp & H0 & H1 & H2).
    exists sorted. split_and!; try done.
    intros k za zb Hlen Ha Hb _ _. by apply (H2 k).
Qed.

(** C10. On a table with all required columns in which no UnitPrice is a
    number after coercion, the transform returns a frame; the UnitPrice
    median is null, every output UnitPrice is null, and every row whose
    TotalAmount is null after coercion has a null output TotalAmount. *)
Theorem C10_all_prices_null (df : DataFrame) :
  has_columns SALES_REQUIRED df →
  (∀ r, r ∈ rows df → isna (to_num (at_col "UnitPrice" r)) = true) →
  ∃ out, clean df = inr out
    ∧ columns out = columns df
    ∧ price_median df = Null
    ∧ Forall2
        (λ r r',
           r' !! "UnitPrice" = Some Null
           ∧ (isna (to_num (at_col "TotalAmount" r)) = true →
              r' !! "TotalAmount" = Some Null))
        (rows (drop_duplicates df)) (rows out).
Proof.
  intros Hreq Hnull. pose proof (proj2 (price_median_Null df) Hnull) as Hmed.
  destruct (clean_sales_rowwise df
    (λ r r', r' !! "UnitPrice" = Some Null
             ∧ (isna (to_num (at_col "TotalAmount" r)) = true →
                r' !! "TotalAmount" = Some Null)) Hreq) as (out & ? & ? & ?).
  - intros r Hr.
    assert (to_num (at_col "UnitPrice" r) = Null) as Hup.
    { unfold drop_duplicates in Hr. cbn [rows] in Hr.
      apply elem_of_drop_seen in Hr as [Hr _]. specialize (Hnull r Hr).
      by destruct (to_num (at_col "UnitPrice" r)). }
    split.
    + by rewrite sales_row_unit_price, Hmed, Hup.
    + intros Hta. rewrite sales_row_total_amount, Hmed, Hup, (fill_isna _ _ Hta).
      cbn. by destruct (fill _ _).
  - by exists out.
Qed.

(** C7. In a table with all required columns, take a row whose Quantity
    is the empty string, whose UnitPrice is the string "10" and whose
    TotalAmount is the empty string, where [to_numeric] reads nothing in the
    empty string and reads ten in "10".  The transform returns a frame that
    holds this row, at its place among the deduplicated rows, with
    Quantity 1, UnitPrice 10 and TotalAmount 10. *)
Theorem C7_empty_quantity_scenario (df : DataFrame) (r : Row) :
  parse_numeric "" = None →
  parse_numeric "10" = Some (Qc_of_Z 10) →
  has_columns SALES_REQUIRED df →
  r ∈ rows df →
  r !! "Quantity" = Some (Str "") →
  r !! "UnitPrice" = Some (Str "10") →
  r !! "TotalAmount" = Some (Str "") →
  ∃ out i r',
    clean df = inr out
    ∧ rows (drop_duplicates df) !! i = Some r
    ∧ rows out !! i = Some r'
    ∧ r' !! "Quantity" = Some (Num (Qc_of_Z 1))
    ∧ r' !! "UnitPrice" = Some (Num (Qc_of_Z 10))
    ∧ r' !! "TotalAmount" = Some (Num (Qc_of_Z 10)).
Proof.
  intros Hempty Hten Hreq Hr Hq Hup Hta.
  assert (r ∈ rows (drop_duplicates df)) as [i Hi]%list_elem_of_lookup.
  { unfold drop_duplicates. cbn [rows]. rewrite elem_of_drop_seen.
    split; [done | apply not_elem_of_empty]. }
  exists (map_rows (cleaned_row df) (drop_duplicates df)), i, (cleaned_row df r).
  split; [by apply clean_sales_rows|]. split; [done|].
  split; [unfold map_rows; cbn [rows]; by rewrite list_lookup_fmap, Hi|].
  rewrite sales_row_quantity, sales_row_unit_price, sales_row_total_amount.
  rewrite (at_col_Some _ _ _ Hq), (at_col_Some _ _ _ Hup), (at_col_Some _ _ _ Hta).
  cbn. rewrite Hempty, Hten. cbn. split_and!; [done..|].
  do 2 f_equal. by apply Qc_is_canon.
Qed.

(** ** The inventory fills *)

Lemma inventory_row_filled (r : Row) (c : string) :
  c ∈ inventory_fill_cols →
  inventory_row r !! c = Some (fill (Str "Unknown") (at_col c r)).
Proof.
  intros Hc. unfold_rows.
  repeat (apply elem_of_cons in Hc as [->|Hc]; [by read_row|]).
  by apply elem_of_nil in Hc.
Qed.

Lemma inventory_row_untouched (r : Row) (c : string) :
  c ∉ inventory_fill_cols → inventory_row r !! c = r !! c.
Proof.
  intros Hc. unfold_rows.
  repeat (rewrite lookup_assign_ne;
          [|intros <-; apply Hc; cbn; repeat constructor]).
  done.
Qed.

Lemma at_col_notna (c : string) (r : Row) :
  isna (at_col c r) = false → r !! c = Some (at_col c r).
Proof. unfold at_col. by destruct (r !! c). Qed.

(** C8. On a table with all required columns the inventory transform
    returns a frame with the same columns whose rows are the rows of the
    input with every repetition of an earlier row removed, in which a null
    ProductName, Category, Brand or SellerID became "Unknown" and every
    other value, under any label, is the value of the input. *)
Theorem C8_inventory_transform (df : DataFrame) :
  has_columns INVENTORY_REQUIRED df →
  ∃ out, clean_inventory df = inr out
    ∧ columns out = columns df
    ∧ NoDup (rows (drop_duplicates df))
    ∧ (∀ r, r ∈ rows (drop_duplicates df) ↔ r ∈ rows df)
    ∧ rows (drop_duplicates df) `sublist_of` rows df
    ∧ Forall2
        (λ r r', ∀ c,
           (c ∈ ["ProductName"; "Category"; "Brand"; "SellerID"] →
            isna (at_col c r) = true → r' !! c = Some (Str "Unknown"))
           ∧ (c ∉ ["ProductName"; "Category"; "Brand"; "SellerID"]
              ∨ isna (at_col c r) = false →
              r' !! c = r !! c))
        (rows (drop_duplicates df)) (rows out).
Proof.
  intros Hreq. eexists. split; [by apply clean_inventory_rows|].
  unfold map_rows, drop_duplicates. cbn [rows columns]. split_and!.
  - done.
  - apply NoDup_drop_seen.
  - intros r. rewrite elem_of_drop_seen. split; [tauto|].
    intros Hr. split; [done | apply not_elem_of_empty].
  - apply sublist_drop_seen.
  - apply Forall2_fmap_same. intros r _ c. split.
    + intros Hc Hnull. by rewrite inventory_row_filled, (fill_isna _ _ Hnull).
    + destruct (decide (c ∈ ["ProductName"; "Category"; "Brand"; "SellerID"]))
        as [Hc|Hc].
      * intros [?|Hv]; [done|].
        by rewrite inventory_row_filled, (fill_notna _ _ Hv), at_col_notna.
      * intros _. by apply inventory_row_untouched.
Qed.

(** ** Cleaning a cleaned frame *)

Lemma to_num_idem (c : cell) : to_num (to_num c) = to_num c.
Proof. by destruct (to_num_null_or_num c) as [->|[x ->]]. Qed.

Lemma to_date_idem (c : cell) : to_date (to_date c) = to_date c.
Proof.
  destruct c as [|x|s|t]; cbn; [done| | |done].
  - by destruct (datetime_of_number x).
  - by destruct (parse_datetime s).
Qed.

Lemma to_num_fill (value c : cell) :
  (value = Null ∨ ∃ x, value = Num x) →
  to_num (fill value (to_num c)) = fill value (to_num c).
Proof.
  intros Hv. destruct (to_num_null_or_num c) as [->|[y ->]]; [|done].
  by destruct Hv as [->|[x ->]].
Qed.

Lemma fill_fill (value value' c : cell) :
  isna value = false → fill value' (fill value c) = fill value c.
Proof. intros Hv. by apply fill_notna, isna_fill. Qed.

Lemma cell_mul_null_or_num (a b : cell) :
  cell_mul a b = Null ∨ ∃ x, cell_mul a b = Num x.
Proof. destruct a, b; cbn; eauto. Qed.

Abbreviation refilled med r :=
  (sales_fill_row med (sales_coerce_row to_num to_date r)).

Lemma at_filled_quantity (med : cell) (r : Row) :
  at_col "Quantity" (refilled med r)
  = fill (Num (Qc_of_Z 1)) (to_num (at_col "Quantity" r)).
Proof. apply at_col_Some, filled_row_quantity. Qed.

Lemma at_filled_unit_price (med : cell) (r : Row) :
  at_col "UnitPrice" (refilled med r) = fill med (to_num (at_col "UnitPrice" r)).
Proof. apply at_col_Some, filled_row_unit_price. Qed.

Lemma at_filled_order_date (med : cell) (r : Row) :
  at_col "OrderDate" (refilled med r) = to_date (at_col "OrderDate" r).
Proof. apply at_col_Some, filled_row_order_date. Qed.

Lemma at_filled_zero_filled (med : cell) (r : Row) (c : string) :
  c ∈ ["Discount"; "Tax"; "ShippingCost"] →
  at_col c (refilled med r) = fill (Num (Qc_of_Z 0)) (to_num (at_col c r)).
Proof. intros Hc. by apply at_col_Some, filled_row_zero_filled. Qed.

Lemma at_filled_total_amount (med : cell) (r : Row) :
  at_col "TotalAmount" (refilled med r)
  = fill (cell_mul (fill (Num (Qc_of_Z 1)) (to_num (at_col "Quantity" r)))
                   (fill med (to_num (at_col "UnitPrice" r))))
         (to_num (at_col "TotalAmount" r)).
Proof. apply at_col_Some, filled_row_total_amount. Qed.

Lemma at_filled_categorical (med : cell) (r : Row) (c : string) :
  c ∈ sales_categorical_cols →
  at_col c (refilled med r) = fill (Str "Unknown") (at_col c r).
Proof. intros Hc. by apply at_col_Some, filled_row_categorical. Qed.

(** Filling a filled quantity, price or total changes nothing. *)
Lemma refill_quantity (c : cell) :
  fill (Num (Qc_of_Z 1)) (to_num (fill (Num (Qc_of_Z 1)) (to_num c)))
  = fill (Num (Qc_of_Z 1)) (to_num c).
Proof. rewrite to_num_fill by eauto. by apply fill_fill. Qed.

Lemma refill_zero (c : cell) :
  fill (Num (Qc_of_Z 0)) (to_num (fill (Num (Qc_of_Z 0)) (to_num c)))
  = fill (Num (Qc_of_Z 0)) (to_num c).
Proof. rewrite to_num_fill by eauto. by apply fill_fill. Qed.

Lemma refill_unit_price (med med' c : cell) :
  (med = Null ∨ ∃ m, med = Num m) →
  (med = Null → med' = Null) →
  fill med' (to_num (fill med (to_num c))) = fill med (to_num c).
Proof.
  intros Hmed Hmed'. rewrite to_num_fill by done.
  destruct (to_num_null_or_num c) as [->|[y ->]]; [|done].
  destruct Hmed as [->|[m ->]]; [|done]. by rewrite Hmed'.
Qed.

Lemma refill_total_amount (product c : cell) :
  (product = Null ∨ ∃ x, product = Num x) →
  fill product (to_num (fill product (to_num c))) = fill product (to_num c).
Proof.
  intros Hp. rewrite to_num_fill by done.
  destruct (to_num_null_or_num c) as [->|[y ->]]; [|done].
  by destruct Hp as [->|[x ->]].
Qed.

(** A cleaned row is a fixed point of the row-wise cleaning, whatever the
    second median is, as long as it is null when the first one was. *)
Lemma filled_row_fixed (med med' : cell) (r : Row) :
  (med = Null ∨ ∃ m, med = Num m) →
  (med = Null → med' = Null) →
  refilled med' (refilled med r) = refilled med r.
Proof.
  intros Hmed Hmed'. apply map_eq. intros c.
  destruct (decide (c = "OrderDate")) as [->|Hod].
  { rewrite !filled_row_order_date, at_filled_order_date.
    by rewrite to_date_idem. }
  destruct (decide (c = "Quantity")) as [->|Hnq].
  { rewrite !filled_row_quantity, at_filled_quantity.
    by rewrite refill_quantity. }
  destruct (decide (c = "UnitPrice")) as [->|Hnup].
  { rewrite !filled_row_unit_price, at_filled_unit_price.
    by rewrite (refill_unit_price med med'). }
  destruct (decide (c ∈ ["Discount"; "Tax"; "ShippingCost"])) as [Hz|Hnz].
  { rewrite !filled_row_zero_filled, at_filled_zero_filled by done.
    by rewrite refill_zero. }
  destruct (decide (c = "TotalAmount")) as [->|Hnta].
  { rewrite !filled_row_total_amount.
    rewrite at_filled_quantity, at_filled_unit_price, at_filled_total_amount.
    rewrite refill_quantity, (refill_unit_price med med') by done.
    rewrite refill_total_amount; [done|]. apply cell_mul_null_or_num. }
  destruct (decide (c ∈ sales_categorical_cols)) as [Hcat|Hncat].
  { rewrite !filled_row_categorical, at_filled_categorical by done.
    by rewrite fill_fill. }
  assert (c ∉ "OrderDate" :: sales_numeric_cols ++ sales_categorical_cols)
    as Hc.
  { unfold sales_numeric_cols. cbn [app]. intros Hc.
    apply elem_of_cons in Hc as [->|Hc]; [done|].
    apply elem_of_cons in Hc as [->|Hc]; [done|].
    apply elem_of_cons in Hc as [->|Hc]; [done|].
    do 3 (apply elem_of_cons in Hc as [->|Hc];
          [apply Hnz, list_elem_of_In; cbn; tauto|]).
    apply elem_of_cons in Hc as [->|Hc]; done. }
  by rewrite !filled_row_untouched.
Qed.

Lemma list_fmap_fixed {A : Type} (f : A → A) (l : list A) :
  (∀ x, x ∈ l → f x = x) → f <$> l = l.
Proof.
  intros Hf. induction l as [|x l IH]; [done|]. cbn. f_equal.
  - apply Hf. left.
  - apply IH. intros y Hy. apply Hf. by right.
Qed.

Lemma drop_duplicates_NoDup (df : DataFrame) :
  NoDup (rows df) → drop_duplicates df = df.
Proof.
  intros Hnd. unfold drop_duplicates. destruct df as [cols rs]. cbn in *.
  f_equal. apply drop_seen_NoDup; [done|]. intros r _. apply not_elem_of_empty.
Qed.

Lemma fill_Null (c : cell) : fill Null c = c.
Proof. by destruct c. Qed.

(** With no repeated row in the cleaned frame, a null median is computed
    again from the very same column. *)
Lemma price_median_fixed (df : DataFrame) :
  NoDup (rows (map_rows (cleaned_row df) (drop_duplicates df))) →
  price_median df = Null →
  price_median (map_rows (cleaned_row df) (drop_duplicates df)) = Null.
Proof.
  intros Hnd Hmed. transitivity (price_median df); [|done].
  unfold unit_price_median.
  rewrite (drop_duplicates_NoDup _ Hnd). f_equal.
  unfold map_rows, to_numeric. cbn [rows].
  rewrite <- !list_fmap_compose. apply list_fmap_ext. intros i r _.
  unfold compose, sales_row.
  rewrite at_filled_unit_price, Hmed, fill_Null.
  apply to_num_idem.
Qed.

(** C5, as the code has it. On a table with all required columns the
    transform returns a frame, and applying the transform to that frame
    returns it unchanged whenever its rows are pairwise distinct.  (Rows
    that the fills made equal are repeated in the frame, and a second pass
    drops the repetitions.) *)
Theorem C5_distinct_output_is_a_fixed_point (df : DataFrame) :
  has_columns SALES_REQUIRED df →
  ∃ out, clean df = inr out ∧ (NoDup (rows out) → clean out = inr out).
Proof.
  intros Hreq.
  set (out := map_rows (cleaned_row df) (drop_duplicates df)).
  exists out. split; [by apply clean_sales_rows|]. intros Hnd.
  rewrite clean_sales_rows by exact Hreq.
  rewrite (drop_duplicates_NoDup _ Hnd). destruct out as [cols rs] eqn:Eout.
  unfold map_rows. cbn [columns rows]. f_equal. f_equal.
  apply list_fmap_fixed. intros r' Hr'.
  assert (r' ∈ rows out) as Hin by (by rewrite Eout).
  unfold out, map_rows in Hin. cbn [rows] in Hin.
  apply list_elem_of_fmap in Hin as (r & -> & _).
  apply filled_row_fixed.
  - apply median_null_or_num.
  - intros Hmed. rewrite <- Eout. apply price_median_fixed; [|done].
    fold out. by rewrite Eout.
Qed.

End Claims.

(** ** The orchestrator *)

Section MainFacts.

Variable parse_numeric : string → option Qc.
Variable parse_datetime : string → option Z.
Variable datetime_of_number : Qc → option Z.
Variable FS : Type.
Variable read_csv : string → FS → Result DataFrame.
Variable to_csv : DataFrame → string → FS → option exn * FS.
Variable path_exists : string → FS → bool.
Variable today : string.

Abbreviation run_sales_body :=
  (sales_body parse_numeric parse_datetime datetime_of_number FS read_csv
     to_csv today).
Abbreviation run_inventory_body :=
  (inventory_body FS read_csv to_csv path_exists today).
Abbreviation run_sales_step :=
  (sales_step parse_numeric parse_datetime datetime_of_number FS read_csv
     to_csv today).
Abbreviation run_inventory_step :=
  (inventory_step FS read_csv to_csv path_exists today).
Abbreviation run_main :=
  (main parse_numeric parse_datetime datetime_of_number FS read_csv to_csv
     path_exists today).

Lemma try_except_returns (body : IO FS unit) (text : string) (w : World FS) :
  fst (try_except FS body (print_exn FS text) w) = inr tt.
Proof.
  unfold try_except, print_exn. by destruct (body w) as [[e|[]] w'].
Qed.





End MainFacts.

(** ** The properties on the example frames *)

(** C3 on a sales table without Tax and on the inventory sample. *)
Lemma C3_witness :
  clean_sales_std sales_without_tax
  = inl (ValueError "Sales data missing columns: "
           (SALES_REQUIRED ∖ list_to_set (columns sales_without_tax)))
  ∧ (∃ out, clean_inventory inventory_sample = inr out).
Proof.
  destruct (C3_missing_columns_validation read_integer read_iso_date
              ns_of_number sales_without_tax) as (Hs & _).
  destruct (C3_missing_columns_validation read_integer read_iso_date
              ns_of_number inventory_sample) as (_ & _ & _ & Hi & _).
  split.
  - apply Hs. intros He.
    assert ("Tax" ∈ SALES_REQUIRED ∖ list_to_set (columns sales_without_tax))
      as Hin by by_computation.
    rewrite He in Hin. by apply not_elem_of_empty in Hin.
  - apply Hi. by_computation.
Defined.

Ltac columns_present := unfold has_columns; by_computation.

(** C4 on the sales and inventory samples. *)
Lemma C4_witness :
  has_columns SALES_REQUIRED sales_sample
  ∧ has_columns INVENTORY_REQUIRED inventory_sample
  ∧ (∃ out, clean_sales_std sales_sample = inr out
            ∧ (length (rows out) ≤ length (rows sales_sample))%nat
            ∧ length (rows out) = distinct_rows sales_sample)
  ∧ (∃ out, clean_inventory inventory_sample = inr out
            ∧ (length (rows out) ≤ length (rows inventory_sample))%nat
            ∧ length (rows out) = distinct_rows inventory_sample).
Proof.
  assert (has_columns SALES_REQUIRED sales_sample) as Hs by columns_present.
  assert (has_columns INVENTORY_REQUIRED inventory_sample) as Hi
    by columns_present.
  split; [exact Hs|]. split; [exact Hi|]. split.
  - exact (proj1 (C4_output_row_count read_integer read_iso_date ns_of_number
                    sales_sample) Hs).
  - exact (proj2 (C4_output_row_count read_integer read_iso_date ns_of_number
                    inventory_sample) Hi).
Defined.


(** C5 on the sales sample, whose cleaned rows are pairwise distinct. *)
Lemma C5_witness :
  has_columns SALES_REQUIRED sales_sample
  ∧ clean_sales_std sales_sample = inr sales_sample_cleaned
  ∧ NoDup (rows sales_sample_cleaned)
  ∧ clean_sales_std sales_sample_cleaned = inr sales_sample_cleaned.
Proof.
  assert (has_columns SALES_REQUIRED sales_sample) as Hs by columns_present.
  destruct (C5_distinct_output_is_a_fixed_point read_integer read_iso_date
              ns_of_number sales_sample Hs) as (out & Hout & Hfixed).
  assert (out = sales_sample_cleaned) as ->.
  { assert (inr out = inr sales_sample_cleaned :> Result DataFrame) as [= ->]
      by (rewrite <- Hout; by_computation).
    reflexivity. }
  assert (NoDup (rows sales_sample_cleaned)) as Hnd by by_computation.
  split; [exact Hs|]. split; [exact Hout|]. split; [exact Hnd|].
  exact (Hfixed Hnd).
Defined.

(** C6 on the sales sample: prices 10 and 6, so the missing one becomes 8. *)
Lemma C6_witness :
  has_columns SALES_REQUIRED sales_sample
  ∧ clean_sales_std sales_sample = inr sales_sample_cleaned
  ∧ median (to_numeric read_integer
              (at_col "UnitPrice" <$> rows (drop_duplicates sales_sample)))
    = Num ((Qc_of_Z 6 + Qc_of_Z 10) / Qc_of_Z 2)%Qc
  ∧ Forall2
      (λ r r',
         r' !! "OrderDate"
           = Some (to_datetime_cell read_iso_date ns_of_number
                     (at_col "OrderDate" r))
         ∧ r' !! "Quantity"
           = Some (if isna (to_numeric_cell read_integer (at_col "Quantity" r))
                   then Num (Qc_of_Z 1)
                   else to_numeric_cell read_integer (at_col "Quantity" r))
         ∧ r' !! "UnitPrice"
           = Some (if isna (to_numeric_cell read_integer (at_col "UnitPrice" r))
                   then median (to_numeric read_integer
                                  (at_col "UnitPrice"
                                     <$> rows (drop_duplicates sales_sample)))
                   else to_numeric_cell read_integer (at_col "UnitPrice" r))
         ∧ (∀ c, c ∈ ["Discount"; "Tax"; "ShippingCost"] →
              r' !! c
              = Some (if isna (to_numeric_cell read_integer (at_col c r))
                      then Num (Qc_of_Z 0)
                      else to_numeric_cell read_integer (at_col c r)))
         ∧ (isna (to_numeric_cell read_integer (at_col "TotalAmount" r))
            = false →
            r' !! "TotalAmount"
            = Some (to_numeric_cell read_integer (at_col "TotalAmount" r)))
         ∧ (∀ c, c ∈ ["PaymentMethod"; "OrderStatus"; "City"; "State";
                      "Country"] →
              r' !! c = Some (if isna (at_col c r)
                              then Str "Unknown" else at_col c r)))
      (rows (drop_duplicates sales_sample)) (rows sales_sample_cleaned).
Proof.
  assert (has_columns SALES_REQUIRED sales_sample) as Hs by columns_present.
  destruct (C6_sales_fill_rules read_integer read_iso_date ns_of_number
              sales_sample Hs)
    as ((out & Hout & _ & Hrows) & _ & _ & _ & _ & _ & _
        & (sorted & Hsorted & Hperm & _ & _ & Heven)).
  assert (out = sales_sample_cleaned) as ->.
  { assert (inr out = inr sales_sample_cleaned :> Result DataFrame) as [= ->]
      by (rewrite <- Hout; by_computation).
    reflexivity. }
  assert (sorted = [Qc_of_Z 6; Qc_of_Z 10]) as ->.
  { apply (Sorted_unique Qcle); [exact Hsorted| |].
    - repeat constructor. by_computation.
    - rewrite Hperm.
      assert (omap (λ c, match c with Num x => Some x | _ => None end)
                (to_numeric read_integer
                   (at_col "UnitPrice" <$> rows (drop_duplicates sales_sample)))
              = [Qc_of_Z 10; Qc_of_Z 6]) as -> by by_computation.
      apply Permutation_swap. }
  split; [exact Hs|]. split; [exact Hout|]. split; [|exact Hrows].
  apply (Heven 0%nat 6%Z 10%Z); [reflexivity..| |]; by_computation.
Defined.

(** C7 on the first line of the sales sample, with the integer reader. *)
Lemma C7_witness :
  read_integer "" = None
  ∧ read_integer "10" = Some (Qc_of_Z 10)
  ∧ has_columns SALES_REQUIRED sales_sample
  ∧ sales_sample_first ∈ rows sales_sample
  ∧ sales_sample_first !! "Quantity" = Some (Str "")
  ∧ sales_sample_first !! "UnitPrice" = Some (Str "10")
  ∧ sales_sample_first !! "TotalAmount" = Some (Str "")
  ∧ ∃ out i r',
      clean_sales_std sales_sample = inr out
      ∧ rows (drop_duplicates sales_sample) !! i = Some sales_sample_first
      ∧ rows out !! i = Some r'
      ∧ r' !! "Quantity" = Some (Num (Qc_of_Z 1))
      ∧ r' !! "UnitPrice" = Some (Num (Qc_of_Z 10))
      ∧ r' !! "TotalAmount" = Some (Num (Qc_of_Z 10)).
Proof.
  assert (read_integer "" = None) as H1 by reflexivity.
  assert (read_integer "10" = Some (Qc_of_Z 10)) as H2 by reflexivity.
  assert (has_columns SALES_REQUIRED sales_sample) as H3 by columns_present.
  assert (sales_sample_first ∈ rows sales_sample) as H4 by (cbn; left).
  assert (sales_sample_first !! "Quantity" = Some (Str "")) as H5
    by (vm_compute; reflexivity).
  assert (sales_sample_first !! "UnitPrice" = Some (Str "10")) as H6
    by (vm_compute; reflexivity).
  assert (sales_sample_first !! "TotalAmount" = Some (Str "")) as H7
    by (vm_compute; reflexivity).
  split_and!; try done.
  exact (C7_empty_quantity_scenario read_integer read_iso_date ns_of_number
           sales_sample sales_sample_first H1 H2 H3 H4 H5 H6 H7).
Defined.

(** C8 on the inventory sample. *)
Lemma C8_witness :
  has_columns INVENTORY_REQUIRED inventory_sample
  ∧ clean_inventory inventory_sample = inr inventory_sample_cleaned
  ∧ NoDup (rows (drop_duplicates inventory_sample))
  ∧ (∀ r, r ∈ rows (drop_duplicates inventory_sample)
          ↔ r ∈ rows inventory_sample)
  ∧ rows (drop_duplicates inventory_sample) `sublist_of` rows inventory_sample
  ∧ Forall2
      (λ r r', ∀ c,
         (c ∈ ["ProductName"; "Category"; "Brand"; "SellerID"] →
          isna (at_col c r) = true → r' !! c = Some (Str "Unknown"))
         ∧ (c ∉ ["ProductName"; "Category"; "Brand"; "SellerID"]
            ∨ isna (at_col c r) = false →
            r' !! c = r !! c))
      (rows (drop_duplicates inventory_sample)) (rows inventory_sample_cleaned).
Proof.
  assert (has_columns INVENTORY_REQUIRED inventory_sample) as Hi
    by columns_present.
  destruct (C8_inventory_transform inventory_sample Hi)
    as (out & Hout & _ & Hnd & Hel & Hsub & Hrows).
  assert (out = inventory_sample_cleaned) as ->.
  { assert (inr out = inr inventory_sample_cleaned :> Result DataFrame)
      as [= ->] by (rewrite <- Hout; by_computation).
    reflexivity. }
  split; [exact Hi|]. split; [exact Hout|]. split; [exact Hnd|].
  split; [exact Hel|]. split; [exact Hsub|]. exact Hrows.
Defined.

(** C10 on a table whose only UnitPrice is missing. *)
Lemma C10_witness :
  has_columns SALES_REQUIRED sales_no_price
  ∧ (∀ r, r ∈ rows sales_no_price →
          isna (to_numeric_cell read_integer (at_col "UnitPrice" r)) = true)
  ∧ ∃ out, clean_sales_std sales_no_price = inr out
      ∧ columns out = columns sales_no_price
      ∧ unit_price_median read_integer sales_no_price = Null
      ∧ Forall2
          (λ r r',
             r' !! "UnitPrice" = Some Null
             ∧ (isna (to_numeric_cell read_integer (at_col "TotalAmount" r)) = true →
                r' !! "TotalAmount" = Some Null))
          (rows (drop_duplicates sales_no_price)) (rows out).
Proof.
  assert (has_columns SALES_REQUIRED sales_no_price) as Hs by columns_present.
  assert (∀ r, r ∈ rows sales_no_price →
               isna (to_numeric_cell read_integer (at_col "UnitPrice" r)) = true)
    as Hnull.
  { intros r Hr. cbn in Hr. apply list_elem_of_singleton in Hr as ->.
    vm_compute. reflexivity. }
  split; [exact Hs|]. split; [exact Hnull|].
  exact (C10_all_prices_null read_integer read_iso_date ns_of_number
           sales_no_price Hs Hnull).
Defined.


(** ** Where the specification and the code part *)


(** C5 as stated fails: the two rows of [sales_near_duplicates] differ in
    the input, are both kept by the first pass, which fills the empty
    quantity with 1 and so makes them equal, and the second pass drops one
    of them. *)
Lemma C5_counterexample :
  has_columns SALES_REQUIRED sales_near_duplicates
  ∧ ∃ out out2,
      clean_sales_std sales_near_duplicates = inr out
      ∧ clean_sales_std out = inr out2
      ∧ length (rows out) = 2
      ∧ length (rows out2) = 1
      ∧ out2 ≠ out.
Proof.
  assert (has_columns SALES_REQUIRED sales_near_duplicates) as Hs
    by columns_present.
  split; [exact Hs|]. eexists _, _.
  split; [by apply clean_sales_rows|].
  split; [by apply clean_sales_rows|].
  assert (∀ a b : DataFrame, length (rows a) ≠ length (rows b) → a ≠ b) as Hne
    by (intros a b Hl ->; done).
  split; [vm_compute; reflexivity|]. split; [vm_compute; reflexivity|].
  apply Hne. vm_compute. discriminate.
Qed.

(** * Further properties of the transforms *)

Section SalesMore.

Variable parse_numeric : string → option Qc.
Variable parse_datetime : string → option Z.
Variable datetime_of_number : Qc → option Z.

Abbreviation to_num := (to_numeric_cell parse_numeric).
Abbreviation to_date := (to_datetime_cell parse_datetime datetime_of_number).
Abbreviation clean := (clean_sales parse_numeric parse_datetime datetime_of_number).
Abbreviation price_median := (unit_price_median parse_numeric).
Abbreviation cleaned_row :=
  (sales_row parse_numeric parse_datetime datetime_of_number).

Lemma elem_of_drop_duplicates (df : DataFrame) (r : Row) :
  r ∈ rows (drop_duplicates df) ↔ r ∈ rows df.
Proof.
  unfold drop_duplicates. cbn [rows]. rewrite elem_of_drop_seen.
  split; [tauto|]. intros Hr. split; [done | apply not_elem_of_empty].
Qed.

(** X1. [clean_sales] assigns to OrderDate, the six numeric and the five
    categorical labels only: the columns of the frame are those of the
    input, in the same order, and under every other label (OrderID,
    CustomerID, ProductID, any additional column) each row keeps what the
    input row holds, an absent value included. *)
Theorem sales_other_columns_unchanged (df : DataFrame) :
  has_columns SALES_REQUIRED df →
  ∃ out, clean df = inr out
    ∧ columns out = columns df
    ∧ Forall2 (λ r r', ∀ c, c ∉ sales_assigned_cols → r' !! c = r !! c)
        (rows (drop_duplicates df)) (rows out).
Proof.
  intros Hreq. apply clean_sales_rowwise; [done|]. intros r _ c Hc.
  by apply sales_row_untouched.
Qed.

(** X2. A TotalAmount that is a number after coercion is never recomputed:
    the output holds that number, whatever the Quantity and UnitPrice of
    the row are. *)
Theorem sales_present_total_kept (df : DataFrame) :
  has_columns SALES_REQUIRED df →
  ∃ out, clean df = inr out
    ∧ Forall2
        (λ r r', ∀ x, to_num (at_col "TotalAmount" r) = Num x →
                      r' !! "TotalAmount" = Some (Num x))
        (rows (drop_duplicates df)) (rows out).
Proof.
  intros Hreq.
  destruct (clean_sales_rowwise parse_numeric parse_datetime datetime_of_number
    df (λ r r', ∀ x, to_num (at_col "TotalAmount" r) = Num x →
                     r' !! "TotalAmount" = Some (Num x)) Hreq)
    as (out & ? & _ & ?); [|by exists out].
  intros r _ x Hx. by rewrite sales_row_total_amount, Hx.
Qed.

(** X3. The cleaned frame is typed: in every row Quantity, Discount, Tax
    and ShippingCost hold a number; UnitPrice and TotalAmount hold a number
    or null; OrderDate holds a timestamp or null.  No string is left under
    these labels. *)
Theorem sales_output_typed (df : DataFrame) :
  has_columns SALES_REQUIRED df →
  ∃ out, clean df = inr out ∧
    ∀ r, r ∈ rows out →
      (∀ c, c ∈ ["Quantity"; "Discount"; "Tax"; "ShippingCost"] →
            ∃ x, r !! c = Some (Num x))
      ∧ (∀ c, c ∈ ["UnitPrice"; "TotalAmount"] →
              r !! c = Some Null ∨ ∃ x, r !! c = Some (Num x))
      ∧ (r !! "OrderDate" = Some Null ∨ ∃ t, r !! "OrderDate" = Some (Date t)).
Proof.
  intros Hreq. eexists. split; [by apply clean_sales_rows|].
  unfold map_rows. cbn [rows]. intros r' (r & -> & _)%list_elem_of_fmap.
  assert (price_median df = Null ∨ ∃ m, price_median df = Num m) as Hmed
    by apply median_null_or_num.
  assert (∀ value c, (value = Null ∨ ∃ x, value = Num x) →
            fill value (to_num c) = Null ∨ ∃ x, fill value (to_num c) = Num x)
    as Hfill.
  { intros value c Hv.
    destruct (to_num_null_or_num parse_numeric c) as [->|[y ->]]; cbn; eauto. }
  split_and!.
  - intros c Hc. apply elem_of_cons in Hc as [->|Hc].
    { rewrite sales_row_quantity.
      destruct (fill_to_num_is_num parse_numeric (Num (Qc_of_Z 1))
                  (at_col "Quantity" r)) as [x ->]; eauto. }
    rewrite sales_row_zero_filled by done.
    destruct (fill_to_num_is_num parse_numeric (Num (Qc_of_Z 0)) (at_col c r))
      as [x ->]; eauto.
  - intros c Hc. apply elem_of_cons in Hc as [->|Hc].
    { rewrite sales_row_unit_price.
      destruct (Hfill (price_median df) (at_col "UnitPrice" r) Hmed)
        as [->|[x ->]]; eauto. }
    apply list_elem_of_singleton in Hc as ->.
    rewrite sales_row_total_amount.
    destruct (Hfill (cell_mul
                (fill (Num (Qc_of_Z 1)) (to_num (at_col "Quantity" r)))
                (fill (price_median df) (to_num (at_col "UnitPrice" r))))
              (at_col "TotalAmount" r) (cell_mul_null_or_num _ _))
      as [->|[x ->]]; eauto.
  - rewrite sales_row_order_date.
    destruct (at_col "OrderDate" r) as [|x|s|t]; cbn; eauto.
    + destruct (datetime_of_number x); eauto.
    + destruct (parse_datetime s); eauto.
Qed.

(** X4. No distinct row is lost and none is invented: the cleaned image of
    every input row is a row of the output, every output row is the cleaned
    image of an input row, and on an input without repeated rows the output
    is the input cleaned row by row, in the same order. *)
Theorem sales_rows_are_cleaned_input_rows (df : DataFrame) :
  has_columns SALES_REQUIRED df →
  ∃ out, clean df = inr out
    ∧ (∀ r, r ∈ rows df → cleaned_row df r ∈ rows out)
    ∧ (∀ r', r' ∈ rows out → ∃ r, r ∈ rows df ∧ r' = cleaned_row df r)
    ∧ (NoDup (rows df) → rows out = cleaned_row df <$> rows df).
Proof.
  intros Hreq. eexists. split; [by apply clean_sales_rows|].
  unfold map_rows. cbn [rows]. split_and!.
  - intros r Hr. by apply list_elem_of_fmap_2, elem_of_drop_duplicates.
  - intros r' (r & -> & Hr)%list_elem_of_fmap.
    exists r. split; [|done]. by apply elem_of_drop_duplicates.
  - intros Hnd. by rewrite drop_duplicates_NoDup.
Qed.

(** X5. A table with all required columns and no rows goes through both
    transforms unchanged: the median of the empty UnitPrice column is null
    and nothing fails. *)
Theorem empty_table_unchanged (df : DataFrame) :
  rows df = [] →
  (has_columns SALES_REQUIRED df → clean df = inr df)
  ∧ (has_columns INVENTORY_REQUIRED df → clean_inventory df = inr df).
Proof.
  intros Hrows. split; intros Hreq.
  - rewrite clean_sales_rows by done. unfold map_rows, drop_duplicates.
    destruct df as [cols rs]. cbn in *. by subst rs.
  - rewrite clean_inventory_rows by done. unfold map_rows, drop_duplicates.
    destruct df as [cols rs]. cbn in *. by subst rs.
Qed.

(** *** The median *)

Lemma median_of_Permutation (l l' : list Qc) :
  l ≡ₚ l' → median_of l = median_of l'.
Proof.
  intros Hp. unfold median_of.
  replace (merge_sort Qcle l') with (merge_sort Qcle l); [done|].
  apply (Sorted_unique Qcle); try apply Sorted_merge_sort; try apply _.
  by rewrite !merge_sort_Permutation.
Qed.

(** X7. The value that fills the missing prices depends on which distinct
    rows the table holds, not on their order nor on how often each is
    repeated. *)
Theorem sales_median_ignores_row_order (df df' : DataFrame) :
  (∀ r, r ∈ rows df ↔ r ∈ rows df') →
  price_median df = price_median df'.
Proof.
  intros Hrows. unfold unit_price_median, median.
  rewrite (median_of_Permutation
             (numbers (to_numeric parse_numeric
                (at_col "UnitPrice" <$> rows (drop_duplicates df))))
             (numbers (to_numeric parse_numeric
                (at_col "UnitPrice" <$> rows (drop_duplicates df'))))); [done|].
  unfold numbers, to_numeric. do 3 f_equiv.
  apply NoDup_Permutation; try apply NoDup_drop_seen.
  intros r. by rewrite !elem_of_drop_duplicates.
Qed.

(** *** Rectangular frames *)

Lemma dom_assign (col : string) (g : Row → cell) (r : Row) :
  dom (assign col g r) = {[col]} ∪ dom r.
Proof. unfold assign. apply dom_insert_L. Qed.

Lemma dom_assign_each (cols : list string) (g : cell → cell) (r : Row) :
  dom (assign_each cols g r) = list_to_set cols ∪ dom r.
Proof.
  unfold assign_each. revert r. induction cols as [|c cols IH]; intros r.
  - cbn. apply leibniz_equiv. intros x. rewrite elem_of_union, elem_of_empty.
    tauto.
  - cbn [foldl list_to_set]. rewrite IH, dom_assign.
    apply leibniz_equiv. intros x. rewrite !elem_of_union. tauto.
Qed.

Lemma dom_inventory_row (r : Row) :
  dom (inventory_row r) = list_to_set inventory_fill_cols ∪ dom r.
Proof. apply dom_assign_each. Qed.

Lemma dom_sales_row (df : DataFrame) (r : Row) :
  dom (cleaned_row df r) = list_to_set sales_assigned_cols ∪ dom r.
Proof.
  unfold sales_row, sales_fill_row, sales_coerce_row. cbv zeta.
  repeat first [rewrite dom_assign_each | rewrite dom_assign].
  unfold sales_assigned_cols, sales_numeric_cols, sales_categorical_cols.
  cbn [app list_to_set].
  apply leibniz_equiv. intros x.
  rewrite !elem_of_union, !elem_of_singleton, elem_of_empty.
  tauto.
Qed.

Lemma rows_match_columns_map (F : Row → Row) (assigned : gset string)
    (required : gset string) (df : DataFrame) :
  (∀ r, dom (F r) = assigned ∪ dom r) →
  assigned ⊆ required →
  has_columns required df →
  rows_match_columns df →
  rows_match_columns (map_rows F (drop_duplicates df)).
Proof.
  intros HF Hsub Hreq Hwf. unfold rows_match_columns, map_rows. cbn [rows columns].
  apply Forall_fmap, Forall_forall. intros r Hr.
  apply (proj1 (elem_of_drop_duplicates _ _)) in Hr.
  unfold rows_match_columns in Hwf. rewrite Forall_forall in Hwf.
  cbn. rewrite HF, (Hwf r Hr). apply subseteq_union_1_L.
  by etrans.
Qed.

(** X8. Both transforms keep a rectangular table rectangular: when every
    row of the input holds a value under exactly the columns of the frame,
    so does every row of the output. *)
Theorem transforms_keep_rows_rectangular (df : DataFrame) :
  rows_match_columns df →
  (has_columns SALES_REQUIRED df →
     ∃ out, clean df = inr out ∧ rows_match_columns out)
  ∧ (has_columns INVENTORY_REQUIRED df →
       ∃ out, clean_inventory df = inr out ∧ rows_match_columns out).
Proof.
  intros Hwf. split; intros Hreq; eexists.
  - split; [by apply clean_sales_rows|].
    apply (rows_match_columns_map _ (list_to_set sales_assigned_cols)
             SALES_REQUIRED); [apply dom_sales_row| |done..].
    by_computation.
  - split; [by apply clean_inventory_rows|].
    apply (rows_match_columns_map _ (list_to_set inventory_fill_cols)
             INVENTORY_REQUIRED); [apply dom_inventory_row| |done..].
    by_computation.
Qed.

(** *** Cleaning a cleaned inventory *)

Lemma inventory_row_fixed (r : Row) :
  inventory_row (inventory_row r) = inventory_row r.
Proof.
  apply map_eq. intros c.
  destruct (decide (c ∈ inventory_fill_cols)) as [Hc|Hc].
  - rewrite (inventory_row_filled (inventory_row r)) by done.
    rewrite (at_col_Some _ _ _ (inventory_row_filled r c Hc)).
    by rewrite fill_fill, inventory_row_filled.
  - by rewrite !inventory_row_untouched.
Qed.

(** X9. Applying [clean_inventory] to its own output changes no value: it
    returns that output with the rows that repeat an earlier row removed,
    and the output itself when its rows are pairwise distinct.  (Two input
    rows that differ only by a null against "Unknown" become equal in the
    first pass.) *)
Theorem inventory_second_pass_only_deduplicates (df : DataFrame) :
  has_columns INVENTORY_REQUIRED df →
  ∃ out, clean_inventory df = inr out
    ∧ clean_inventory out = inr (drop_duplicates out)
    ∧ (NoDup (rows out) → clean_inventory out = inr out).
Proof.
  intros Hreq.
  set (out := map_rows inventory_row (drop_duplicates df)).
  assert (clean_inventory out = inr (drop_duplicates out)) as Hsecond.
  { rewrite clean_inventory_rows by exact Hreq. f_equal.
    unfold map_rows at 1. cbn [columns]. unfold drop_duplicates at 3.
    f_equal. apply list_fmap_fixed. intros r' Hr'.
    apply (proj1 (elem_of_drop_duplicates _ _)) in Hr'.
    unfold out, map_rows in Hr'. cbn [rows] in Hr'.
    apply list_elem_of_fmap in Hr' as (r & -> & _).
    apply inventory_row_fixed. }
  exists out. split; [by apply clean_inventory_rows|]. split; [done|].
  intros Hnd. by rewrite Hsecond, drop_duplicates_NoDup.
Qed.

End SalesMore.

(** * Further properties of the orchestrator *)

Section MainMore.

Variable parse_numeric : string → option Qc.
Variable parse_datetime : string → option Z.
Variable datetime_of_number : Qc → option Z.
Variable FS : Type.
Variable read_csv : string → FS → Result DataFrame.
Variable to_csv : DataFrame → string → FS → option exn * FS.
Variable path_exists : string → FS → bool.
Variable today : string.

Abbreviation clean := (clean_sales parse_numeric parse_datetime datetime_of_number).
Abbreviation run_sales_step :=
  (sales_step parse_numeric parse_datetime datetime_of_number FS read_csv
     to_csv today).
Abbreviation run_inventory_step :=
  (inventory_step FS read_csv to_csv path_exists today).
Abbreviation run_main :=
  (main parse_numeric parse_datetime datetime_of_number FS read_csv to_csv
     path_exists today).

Abbreviation sales_raw := (path_join RAW_DIR "sales_data.csv").
Abbreviation inventory_raw := (path_join RAW_DIR "inventory_data.csv").
Abbreviation sales_processed := (path_join PROCESSED_DIR "sales_cleaned.csv").
Abbreviation sales_daily :=
  (path_join (today_dir today) "sales_cleaned.csv").
Abbreviation inventory_processed :=
  (path_join PROCESSED_DIR "inventory_cleaned.csv").
Abbreviation inventory_daily :=
  (path_join (today_dir today) "inventory_cleaned.csv").

Abbreviation sales_loaded := (Say "✅ Sales data loaded successfully").
Abbreviation sales_saved := (Say "✅ Sales data cleaned and saved").
Abbreviation sales_failed := (SayExn "❌ Error processing sales data:").
Abbreviation inventory_loaded := (Say "✅ Inventory data loaded successfully").
Abbreviation inventory_saved := (Say "✅ Inventory data cleaned and saved").
Abbreviation inventory_failed := (SayExn "❌ Error processing inventory data:").
Abbreviation inventory_skipped :=
  (Say "⚠️ inventory_data.csv not found — skipping inventory ingestion").

Ltac run_io :=
  unfold sales_step, inventory_step, try_except, sales_body, inventory_body,
    io_read_csv, io_to_csv, io_exists, io_lift, print, print_exn, mbind,
    io_bind, say;
  cbn [fs stdout].

(** X10. When the sales file cannot be read, or is read but lacks a
    required column, the sales step writes nothing: the file system is left
    as it was, and the exception is printed (after the loaded message, if
    the file was read). *)
Theorem sales_step_failure_before_write (w : World FS) :
  (∀ e, read_csv sales_raw (fs w) = inl e →
        run_sales_step w = (inr tt, say (sales_failed e) w))
  ∧ (∀ df, read_csv sales_raw (fs w) = inr df →
           ¬ has_columns SALES_REQUIRED df →
           run_sales_step w
           = (inr tt,
              say (sales_failed
                     (ValueError "Sales data missing columns: "
                        (SALES_REQUIRED ∖ list_to_set (columns df))))
                (say sales_loaded w))).
Proof.
  split.
  - intros e He. run_io. by rewrite He.
  - intros df Hdf Hmiss. run_io. rewrite Hdf.
    rewrite (clean_sales_missing parse_numeric parse_datetime
               datetime_of_number df); [done|].
    intros He. by apply Hmiss, missing_empty_iff.
Qed.

(** X11. When the sales file is read and cleaned and both writes succeed,
    the same cleaned frame is written first to the processed path and then
    to the dated path, and the two success messages are printed. *)
Theorem sales_step_success (w : World FS) (df cleaned : DataFrame)
    (fs1 fs2 : FS) :
  read_csv sales_raw (fs w) = inr df →
  clean df = inr cleaned →
  to_csv cleaned sales_processed (fs w) = (None, fs1) →
  to_csv cleaned sales_daily fs1 = (None, fs2) →
  run_sales_step w
  = (inr tt, {| fs := fs2; stdout := stdout w ++ [sales_loaded; sales_saved] |}).
Proof.
  intros Hdf Hclean H1 H2. run_io. rewrite Hdf, Hclean. cbn [fs stdout].
  rewrite H1. cbn [fs stdout]. rewrite H2. cbn [fs stdout].
  by rewrite <- app_assoc.
Qed.

(** X12. A failing write is reported and not undone.  If the processed
    write fails the dated write is not attempted; if the processed write
    succeeds and the dated write fails, the file system is the one the two
    calls left, processed copy included.  In both cases the exception is
    printed and the saved message is not. *)
Theorem sales_step_write_failure (w : World FS) (df cleaned : DataFrame) :
  read_csv sales_raw (fs w) = inr df →
  clean df = inr cleaned →
  (∀ e fs1, to_csv cleaned sales_processed (fs w) = (Some e, fs1) →
     run_sales_step w
     = (inr tt, {| fs := fs1;
                   stdout := stdout w ++ [sales_loaded; sales_failed e] |}))
  ∧ (∀ e fs1 fs2,
       to_csv cleaned sales_processed (fs w) = (None, fs1) →
       to_csv cleaned sales_daily fs1 = (Some e, fs2) →
       run_sales_step w
       = (inr tt, {| fs := fs2;
                     stdout := stdout w ++ [sales_loaded; sales_failed e] |})).
Proof.
  intros Hdf Hclean. split.
  - intros e fs1 H1. run_io. rewrite Hdf, Hclean. cbn [fs stdout].
    rewrite H1. cbn [fs stdout]. by rewrite <- app_assoc.
  - intros e fs1 fs2 H1 H2. run_io. rewrite Hdf, Hclean. cbn [fs stdout].
    rewrite H1. cbn [fs stdout]. rewrite H2. cbn [fs stdout].
    by rewrite <- app_assoc.
Qed.

(** X13. When the inventory file exists the inventory step follows the
    same course as the sales step: a read failure or a missing required
    column is printed and nothing is written; otherwise the cleaned frame
    is written to the processed path and then to the dated path. *)
Theorem inventory_step_when_present (w : World FS) :
  path_exists inventory_raw (fs w) = true →
  (∀ e, read_csv inventory_raw (fs w) = inl e →
        run_inventory_step w = (inr tt, say (inventory_failed e) w))
  ∧ (∀ df, read_csv inventory_raw (fs w) = inr df →
           ¬ has_columns INVENTORY_REQUIRED df →
           run_inventory_step w
           = (inr tt,
              say (inventory_failed
                     (ValueError "Inventory data missing columns: "
                        (INVENTORY_REQUIRED ∖ list_to_set (columns df))))
                (say inventory_loaded w)))
  ∧ (∀ df cleaned fs1 fs2,
       read_csv inventory_raw (fs w) = inr df →
       clean_inventory df = inr cleaned →
       to_csv cleaned inventory_processed (fs w) = (None, fs1) →
       to_csv cleaned inventory_daily fs1 = (None, fs2) →
       run_inventory_step w
       = (inr tt, {| fs := fs2;
                     stdout := stdout w ++ [inventory_loaded; inventory_saved] |})).
Proof.
  intros Hex. split_and!.
  - intros e He. run_io. by rewrite Hex, He.
  - intros df Hdf Hmiss. run_io. rewrite Hex, Hdf.
    rewrite (clean_inventory_missing df); [done|].
    intros He. by apply Hmiss, missing_empty_iff.
  - intros df cleaned fs1 fs2 Hdf Hclean H1 H2. run_io.
    rewrite Hex, Hdf, Hclean. cbn [fs stdout].
    rewrite H1. cbn [fs stdout]. rewrite H2. cbn [fs stdout].
    by rewrite <- app_assoc.
Qed.

(** *** What a run prints *)

Lemma sales_step_prints (w : World FS) :
  ∃ ms : list message, stdout (snd (run_sales_step w)) = (stdout w ++ ms)%list
    ∧ (ms = [sales_loaded; sales_saved]
       ∨ ∃ e, ms = [sales_failed e] ∨ ms = [sales_loaded; sales_failed e]).
Proof.
  run_io. destruct (read_csv sales_raw (fs w)) as [e|df]; cbn.
  { exists [sales_failed e]. eauto. }
  destruct (clean df) as [e|cleaned]; cbn.
  { exists [sales_loaded; sales_failed e]. rewrite <- app_assoc. eauto. }
  destruct (to_csv cleaned sales_processed (fs w)) as [[e|] fs1]; cbn.
  { exists [sales_loaded; sales_failed e]. rewrite <- app_assoc. eauto. }
  destruct (to_csv cleaned sales_daily fs1) as [[e|] fs2]; cbn.
  { exists [sales_loaded; sales_failed e]. rewrite <- app_assoc. eauto. }
  exists [sales_loaded; sales_saved]. rewrite <- app_assoc. eauto.
Qed.

Lemma inventory_step_prints (w : World FS) :
  ∃ mi : list message,
    stdout (snd (run_inventory_step w)) = (stdout w ++ mi)%list
    ∧ (mi = [inventory_skipped]
       ∨ mi = [inventory_loaded; inventory_saved]
       ∨ ∃ e, mi = [inventory_failed e]
              ∨ mi = [inventory_loaded; inventory_failed e]).
Proof.
  run_io. destruct (path_exists inventory_raw (fs w)); cbn;
    [|exists [inventory_skipped]; eauto].
  destruct (read_csv inventory_raw (fs w)) as [e|df]; cbn.
  { exists [inventory_failed e]. eauto 6. }
  destruct (clean_inventory df) as [e|cleaned]; cbn.
  { exists [inventory_loaded; inventory_failed e]. rewrite <- app_assoc. eauto 6. }
  destruct (to_csv cleaned inventory_processed (fs w)) as [[e|] fs1]; cbn.
  { exists [inventory_loaded; inventory_failed e]. rewrite <- app_assoc. eauto 6. }
  destruct (to_csv cleaned inventory_daily fs1) as [[e|] fs2]; cbn.
  { exists [inventory_loaded; inventory_failed e]. rewrite <- app_assoc. eauto 6. }
  exists [inventory_loaded; inventory_saved]. rewrite <- app_assoc. eauto.
Qed.

(** X14. A run only appends to standard output, and what it appends is:
    for sales, the loaded and saved messages, or the error alone, or the
    loaded message and the error; then for inventory the skip message, or
    one of the same three; then the completion message.  Each data set so
    gets exactly one outcome, and a run prints three to five lines. *)
Theorem main_prints (w : World FS) :
  ∃ ms mi : list message,
    stdout (snd (run_main w))
    = (stdout w ++ ms ++ mi ++ [Say "🎯 Ingestion completed"])%list
    ∧ (ms = [sales_loaded; sales_saved]
       ∨ ∃ e, ms = [sales_failed e] ∨ ms = [sales_loaded; sales_failed e])
    ∧ (mi = [inventory_skipped]
       ∨ mi = [inventory_loaded; inventory_saved]
       ∨ ∃ e, mi = [inventory_failed e]
              ∨ mi = [inventory_loaded; inventory_failed e])
    ∧ (3 ≤ length (ms ++ mi ++ [Say "🎯 Ingestion completed"])%list ≤ 5)%nat.
Proof.
  destruct (sales_step_prints w) as (ms & Hs & Hms).
  pose proof (try_except_returns FS
    (sales_body parse_numeric parse_datetime datetime_of_number FS read_csv
       to_csv today) "❌ Error processing sales data:" w) as Hrs.
  fold run_sales_step in Hrs.
  destruct (run_sales_step w) as [rs ws] eqn:Es. cbn in Hrs, Hs. subst rs.
  destruct (inventory_step_prints ws) as (mi & Hi & Hmi).
  pose proof (try_except_returns FS
    (inventory_body FS read_csv to_csv path_exists today)
    "❌ Error processing inventory data:" ws) as Hri.
  fold run_inventory_step in Hri.
  destruct (run_inventory_step ws) as [ri wi] eqn:Ei. cbn in Hri, Hi. subst ri.
  exists ms, mi. split; [|split; [done|split; [done|]]].
  - unfold main, mbind, io_bind. rewrite Es, Ei. unfold print, say. cbn.
    by rewrite Hi, Hs, <- !app_assoc.
  - rewrite !length_app. cbn.
    destruct Hms as [->|[e [->| ->]]];
      destruct Hmi as [->|[->|[e' [->| ->]]]]; cbn; lia.
Qed.

End MainMore.

(** *** The paths of a run *)

Lemma string_app_inv_head (s a b : string) : s ++ a = s ++ b → a = b.
Proof.
  induction s as [|c s IH]; cbn; [done|]. intros [= H]. by apply IH.
Qed.

(** X15. Whatever the run date, the six paths of a run are pairwise
    different strings: the two raw inputs, the two processed outputs and
    the two dated outputs.  No output is written over a raw input or over
    another output. *)
Theorem run_paths_distinct (today : string) :
  NoDup [path_join RAW_DIR "sales_data.csv";
         path_join RAW_DIR "inventory_data.csv";
         path_join PROCESSED_DIR "sales_cleaned.csv";
         path_join PROCESSED_DIR "inventory_cleaned.csv";
         path_join (today_dir today) "sales_cleaned.csv";
         path_join (today_dir today) "inventory_cleaned.csv"].
Proof.
  repeat (apply NoDup_cons; split); try apply NoDup_nil_2;
    rewrite ?elem_of_cons, elem_of_nil; unfold today_dir, path_join;
    cbn; intros H; repeat destruct H as [H|H]; try done.
  injection H as H. by apply string_app_inv_head in H.
Qed.

(** ** The further properties on the example frames *)

(** X1 on the sales sample. *)
Lemma sales_other_columns_unchanged_witness :
  has_columns SALES_REQUIRED sales_sample
  ∧ ∃ out, clean_sales_std sales_sample = inr out
      ∧ columns out = columns sales_sample
      ∧ Forall2 (λ r r', ∀ c, c ∉ sales_assigned_cols → r' !! c = r !! c)
          (rows (drop_duplicates sales_sample)) (rows out).
Proof.
  assert (has_columns SALES_REQUIRED sales_sample) as Hs by columns_present.
  split; [exact Hs|].
  exact (sales_other_columns_unchanged read_integer read_iso_date ns_of_number
           sales_sample Hs).
Defined.

(** X2 on the sales sample. *)
Lemma sales_present_total_kept_witness :
  has_columns SALES_REQUIRED sales_sample
  ∧ ∃ out, clean_sales_std sales_sample = inr out
      ∧ Forall2
          (λ r r', ∀ x,
             to_numeric_cell read_integer (at_col "TotalAmount" r) = Num x →
             r' !! "TotalAmount" = Some (Num x))
          (rows (drop_duplicates sales_sample)) (rows out).
Proof.
  assert (has_columns SALES_REQUIRED sales_sample) as Hs by columns_present.
  split; [exact Hs|].
  exact (sales_present_total_kept read_integer read_iso_date ns_of_number
           sales_sample Hs).
Defined.

(** X3 on the sales sample. *)
Lemma sales_output_typed_witness :
  has_columns SALES_REQUIRED sales_sample
  ∧ ∃ out, clean_sales_std sales_sample = inr out ∧
      ∀ r, r ∈ rows out →
        (∀ c, c ∈ ["Quantity"; "Discount"; "Tax"; "ShippingCost"] →
              ∃ x, r !! c = Some (Num x))
        ∧ (∀ c, c ∈ ["UnitPrice"; "TotalAmount"] →
                r !! c = Some Null ∨ ∃ x, r !! c = Some (Num x))
        ∧ (r !! "OrderDate" = Some Null
           ∨ ∃ t, r !! "OrderDate" = Some (Date t)).
Proof.
  assert (has_columns SALES_REQUIRED sales_sample) as Hs by columns_present.
  split; [exact Hs|].
  exact (sales_output_typed read_integer read_iso_date ns_of_number
           sales_sample Hs).
Defined.

(** X4 on the sales sample. *)
Lemma sales_rows_are_cleaned_input_rows_witness :
  has_columns SALES_REQUIRED sales_sample
  ∧ ∃ out, clean_sales_std sales_sample = inr out
      ∧ (∀ r, r ∈ rows sales_sample →
              sales_row read_integer read_iso_date ns_of_number sales_sample r
              ∈ rows out)
      ∧ (∀ r', r' ∈ rows out →
               ∃ r, r ∈ rows sales_sample
                    ∧ r' = sales_row read_integer read_iso_date ns_of_number
                             sales_sample r)
      ∧ (NoDup (rows sales_sample) →
         rows out = sales_row read_integer read_iso_date ns_of_number
                      sales_sample <$> rows sales_sample).
Proof.
  assert (has_columns SALES_REQUIRED sales_sample) as Hs by columns_present.
  split; [exact Hs|].
  exact (sales_rows_are_cleaned_input_rows read_integer read_iso_date
           ns_of_number sales_sample Hs).
Defined.

(** X5 on the empty sales table. *)
Lemma empty_table_unchanged_witness :
  rows sales_empty = []
  ∧ has_columns SALES_REQUIRED sales_empty
  ∧ clean_sales_std sales_empty = inr sales_empty.
Proof.
  assert (rows sales_empty = []) as He by reflexivity.
  assert (has_columns SALES_REQUIRED sales_empty) as Hs by columns_present.
  split; [exact He|]. split; [exact Hs|].
  exact (proj1 (empty_table_unchanged read_integer read_iso_date ns_of_number
                  sales_empty He) Hs).
Defined.

(** X7 on the sales sample and the same lines in reverse order. *)
Lemma sales_median_ignores_row_order_witness :
  (∀ r, r ∈ rows sales_sample ↔ r ∈ rows sales_sample_reversed)
  ∧ unit_price_median read_integer sales_sample
    = unit_price_median read_integer sales_sample_reversed.
Proof.
  assert (∀ r, r ∈ rows sales_sample ↔ r ∈ rows sales_sample_reversed) as Hr.
  { intros r. unfold sales_sample_reversed. cbn [rows].
    by rewrite elem_of_reverse. }
  split; [exact Hr|].
  exact (sales_median_ignores_row_order read_integer sales_sample
           sales_sample_reversed Hr).
Defined.

(** X8 on the two samples, which are rectangular. *)
Lemma transforms_keep_rows_rectangular_witness :
  rows_match_columns sales_sample
  ∧ rows_match_columns inventory_sample
  ∧ (∃ out, clean_sales_std sales_sample = inr out ∧ rows_match_columns out)
  ∧ (∃ out, clean_inventory inventory_sample = inr out
            ∧ rows_match_columns out).
Proof.
  assert (rows_match_columns sales_sample) as Hs
    by (unfold rows_match_columns; by_computation).
  assert (rows_match_columns inventory_sample) as Hi
    by (unfold rows_match_columns; by_computation).
  assert (has_columns SALES_REQUIRED sales_sample) as Hcs by columns_present.
  assert (has_columns INVENTORY_REQUIRED inventory_sample) as Hci
    by columns_present.
  split; [exact Hs|]. split; [exact Hi|]. split.
  - exact (proj1 (transforms_keep_rows_rectangular read_integer read_iso_date
                    ns_of_number sales_sample Hs) Hcs).
  - exact (proj2 (transforms_keep_rows_rectangular read_integer read_iso_date
                    ns_of_number inventory_sample Hi) Hci).
Defined.

(** X9 on the inventory sample. *)
Lemma inventory_second_pass_only_deduplicates_witness :
  has_columns INVENTORY_REQUIRED inventory_sample
  ∧ ∃ out, clean_inventory inventory_sample = inr out
      ∧ clean_inventory out = inr (drop_duplicates out)
      ∧ (NoDup (rows out) → clean_inventory out = inr out).
Proof.
  assert (has_columns INVENTORY_REQUIRED inventory_sample) as Hi
    by columns_present.
  split; [exact Hi|].
  exact (inventory_second_pass_only_deduplicates inventory_sample Hi).
Defined.

(** X11 on a store that holds the sales sample. *)
Lemma sales_step_success_witness :
  ∃ cleaned,
    store_read_csv (path_join RAW_DIR "sales_data.csv") (fs sales_only_world)
    = inr sales_sample
    ∧ clean_sales_std sales_sample = inr cleaned
    ∧ sales_step read_integer read_iso_date ns_of_number frame_store
        store_read_csv store_to_csv "2026-11-04" sales_only_world
      = (inr tt,
         {| fs := <[path_join (today_dir "2026-11-04") "sales_cleaned.csv"
                    := cleaned]>
                    (<[path_join PROCESSED_DIR "sales_cleaned.csv" := cleaned]>
                       (fs sales_only_world));
            stdout := stdout sales_only_world
                      ++ [Say "✅ Sales data loaded successfully";
                          Say "✅ Sales data cleaned and saved"] |}).
Proof.
  assert (has_columns SALES_REQUIRED sales_sample) as Hs by columns_present.
  pose proof (clean_sales_rows read_integer read_iso_date ns_of_number
                sales_sample Hs) as Hclean.
  assert (store_read_csv (path_join RAW_DIR "sales_data.csv")
            (fs sales_only_world) = inr sales_sample) as Hread
    by (vm_compute; reflexivity).
  eexists. split; [exact Hread|]. split; [exact Hclean|].
  exact (sales_step_success read_integer read_iso_date ns_of_number frame_store
           store_read_csv store_to_csv "2026-11-04" sales_only_world
           sales_sample _ _ _ Hread Hclean eq_refl eq_refl).
Defined.

(** X12 on the same store with a writer that refuses. *)
Lemma sales_step_write_failure_witness :
  ∃ cleaned,
    store_read_csv (path_join RAW_DIR "sales_data.csv") (fs sales_only_world)
    = inr sales_sample
    ∧ clean_sales_std sales_sample = inr cleaned
    ∧ sales_step read_integer read_iso_date ns_of_number frame_store
        store_read_csv store_to_csv_denied "2026-11-04" sales_only_world
      = (inr tt,
         {| fs := fs sales_only_world;
            stdout := stdout sales_only_world
                      ++ [Say "✅ Sales data loaded successfully";
                          SayExn "❌ Error processing sales data:"
                            (OtherError "Permission denied")] |}).
Proof.
  assert (has_columns SALES_REQUIRED sales_sample) as Hs by columns_present.
  pose proof (clean_sales_rows read_integer read_iso_date ns_of_number
                sales_sample Hs) as Hclean.
  assert (store_read_csv (path_join RAW_DIR "sales_data.csv")
            (fs sales_only_world) = inr sales_sample) as Hread
    by (vm_compute; reflexivity).
  eexists. split; [exact Hread|]. split; [exact Hclean|].
  exact (proj1 (sales_step_write_failure read_integer read_iso_date
                  ns_of_number frame_store store_read_csv store_to_csv_denied
                  "2026-11-04" sales_only_world sales_sample _ Hread Hclean)
           _ _ eq_refl).
Defined.

(** X13 on a store that holds both samples. *)
Lemma inventory_step_when_present_witness :
  ∃ cleaned,
    store_exists (path_join RAW_DIR "inventory_data.csv") (fs both_files_world)
    = true
    ∧ store_read_csv (path_join RAW_DIR "inventory_data.csv")
        (fs both_files_world) = inr inventory_sample
    ∧ clean_inventory inventory_sample = inr cleaned
    ∧ inventory_step frame_store store_read_csv store_to_csv store_exists
        "2026-11-04" both_files_world
      = (inr tt,
         {| fs := <[path_join (today_dir "2026-11-04") "inventory_cleaned.csv"
                    := cleaned]>
                    (<[path_join PROCESSED_DIR "inventory_cleaned.csv"
                       := cleaned]> (fs both_files_world));
            stdout := stdout both_files_world
                      ++ [Say "✅ Inventory data loaded successfully";
                          Say "✅ Inventory data cleaned and saved"] |}).
Proof.
  assert (has_columns INVENTORY_REQUIRED inventory_sample) as Hi
    by columns_present.
  pose proof (clean_inventory_rows inventory_sample Hi) as Hclean.
  assert (store_exists (path_join RAW_DIR "inventory_data.csv")
            (fs both_files_world) = true) as Hex by (vm_compute; reflexivity).
  assert (store_read_csv (path_join RAW_DIR "inventory_data.csv")
            (fs both_files_world) = inr inventory_sample) as Hread
    by (vm_compute; reflexivity).
  eexists. split; [exact Hex|]. split; [exact Hread|]. split; [exact Hclean|].
  exact (proj2 (proj2 (inventory_step_when_present frame_store store_read_csv
                         store_to_csv store_exists "2026-11-04"
                         both_files_world Hex))
           inventory_sample _ _ _ Hread Hclean eq_refl eq_refl).
Defined.

(** X10 on a store whose sales file lacks the Tax column. *)
Lemma sales_step_failure_before_write_witness :
  store_read_csv (path_join RAW_DIR "sales_data.csv") (fs tax_missing_world)
  = inr sales_without_tax
  ∧ ¬ has_columns SALES_REQUIRED sales_without_tax
  ∧ sales_step read_integer read_iso_date ns_of_number frame_store
      store_read_csv store_to_csv "2026-11-04" tax_missing_world
    = (inr tt,
       say (SayExn "❌ Error processing sales data:"
              (ValueError "Sales data missing columns: "
                 (SALES_REQUIRED ∖ list_to_set (columns sales_without_tax))))
         (say (Say "✅ Sales data loaded successfully") tax_missing_world)).
Proof.
  assert (store_read_csv (path_join RAW_DIR "sales_data.csv")
            (fs tax_missing_world) = inr sales_without_tax) as Hread
    by (vm_compute; reflexivity).
  assert (¬ has_columns SALES_REQUIRED sales_without_tax) as Hmiss
    by (unfold has_columns; by_computation).
  split; [exact Hread|]. split; [exact Hmiss|].
  exact (proj2 (sales_step_failure_before_write read_integer read_iso_date
                  ns_of_number frame_store store_read_csv store_to_csv
                  "2026-11-04" tax_missing_world)
           sales_without_tax Hread Hmiss).
Defined.
